(** * EchoVerse: the tone rewriter, the narrator and the processing step

    A shallow embedding of [app.py].  Python strings are sequences of
    Unicode code points, the Streamlit page and the outside world (the
    file system, the clock, the gTTS service) are an explicit [World]
    that every effectful method threads, and a raised Python exception
    is the left summand of a computation's result. *)

From Stdlib Require Import ZArith NArith Lia String Ascii DecimalString.
From stdpp Require Import base option list gmap.

Open Scope list_scope.

(** ** Python [str] *)

(** A [str] is a list of code points; [len] is the list length. *)
Abbreviation pystr := (list N).

(** An ASCII literal of the source, as a [str]. *)
Definition py (s : string) : pystr :=
  map N_of_ascii (list_ascii_of_string s).

Arguments py : simpl never.

(** [str.isspace] on one character, as CPython's [Py_UNICODE_ISSPACE]
    decides it; [str.strip()] and [str.split()] without arguments use
    this class. *)
Definition isspace (c : N) : bool :=
  ((9 <=? c) && (c <=? 13) || (28 <=? c) && (c <=? 32)
   || (c =? 133) || (c =? 160) || (c =? 5760)
   || (8192 <=? c) && (c <=? 8202)
   || (c =? 8232) || (c =? 8233) || (c =? 8239) || (c =? 8287)
   || (c =? 12288))%N.

Fixpoint lstrip (s : pystr) : pystr :=
  match s with
  | [] => []
  | c :: s' => if isspace c then lstrip s' else s
  end.

Definition rstrip (s : pystr) : pystr := rev (lstrip (rev s)).

(** [s.strip()] *)
Definition strip (s : pystr) : pystr := rstrip (lstrip s).

(** [s.split()]: the maximal runs of non-whitespace characters, in
    order.  [cur] holds the run being read, last character first. *)
Fixpoint split_from (cur : pystr) (s : pystr) : list pystr :=
  match s with
  | [] => match cur with [] => [] | _ => [rev cur] end
  | c :: s' =>
      if isspace c
      then match cur with
           | [] => split_from [] s'
           | _ => rev cur :: split_from [] s'
           end
      else split_from (c :: cur) s'
  end.

Definition split (s : pystr) : list pystr := split_from [] s.

(** [s.split(sep)] for a one-character separator: the pieces between
    the separators, empty pieces included; never the empty list. *)
Fixpoint split_on_from (sep : N) (cur : pystr) (s : pystr) : list pystr :=
  match s with
  | [] => [rev cur]
  | c :: s' =>
      if (c =? sep)%N then rev cur :: split_on_from sep [] s'
      else split_on_from sep (c :: cur) s'
  end.

Definition split_on (sep : N) (s : pystr) : list pystr :=
  split_on_from sep [] s.

(** [sep.join(l)] *)
Fixpoint join (sep : pystr) (l : list pystr) : pystr :=
  match l with
  | [] => []
  | [x] => x
  | x :: l' => x ++ sep ++ join sep l'
  end.

(** [str(n)] for an [int]. *)
Definition str_nat (n : nat) : pystr :=
  py (NilZero.string_of_uint (Nat.to_uint n)).

Definition str_int (z : Z) : pystr :=
  py (NilZero.string_of_int (Z.to_int z)).

Arguments str_nat : simpl never.
Arguments str_int : simpl never.

(** Truth value of a [str]: non-empty. *)
Definition nonempty (s : pystr) : bool :=
  match s with [] => false | _ => true end.

(** Truth value of a value that is [None] or a [str]. *)
Definition truthy (o : option pystr) : bool :=
  match o with Some s => nonempty s | None => false end.

(** [s.startswith(p)] *)
Fixpoint startswith (p s : pystr) : bool :=
  match p, s with
  | [], _ => true
  | a :: p', b :: s' => (a =? b)%N && startswith p' s'
  | _ :: _, [] => false
  end.

(** [p in s] for strings. *)
Fixpoint contains (p s : pystr) : bool :=
  startswith p s ||
  match s with
  | [] => false
  | _ :: s' => contains p s'
  end.

(** ** The world and the effect monad *)

(** An instance of Python's [Exception]; [str(e)] is its message. *)
Inductive Exn := Exception (message : pystr).

Definition str_exn (e : Exn) : pystr :=
  match e with Exception m => m end.

(** What a run leaves behind, in order: the Streamlit elements it put
    on the page and the calls it made to gTTS and to [tempfile]. *)
Inductive Event :=
| st_error (body : pystr)
| st_info (body : pystr)
| st_button (label : pystr)
| st_spinner (label : pystr)
| st_subheader (body : pystr)
| st_markdown (body : pystr)
| st_columns (widths : list nat)
| st_audio (data : list N) (format : pystr)
| st_download_button (label : pystr) (data : list N) (file_name mime : pystr)
| gTTS_call (text lang : pystr) (slow : bool)
| tempfile_call (name : pystr)
| save_call (name : pystr).

(** The state outside the program.  [pressed] is what [st.button]
    answers for a label during this run; [tmp_stem] and [tmp_next] are
    the names the operating system hands to [NamedTemporaryFile];
    [gtts_init] says whether constructing a [gTTS] object raises, and
    [gtts_audio] whether saving raises or which bytes it writes. *)
Record World := {
  trace : list Event;
  pressed : pystr -> bool;
  files : gmap pystr (list N);
  tmp_stem : nat -> pystr;
  tmp_next : nat;
  clock : Z;
  gtts_init : pystr -> pystr -> bool -> option Exn;
  gtts_audio : pystr -> pystr -> bool -> Exn + list N
}.

Definition with_trace (t : list Event) (w : World) : World :=
  {| trace := t; pressed := pressed w; files := files w;
     tmp_stem := tmp_stem w; tmp_next := tmp_next w; clock := clock w;
     gtts_init := gtts_init w; gtts_audio := gtts_audio w |}.

Definition with_files (f : gmap pystr (list N)) (w : World) : World :=
  {| trace := trace w; pressed := pressed w; files := f;
     tmp_stem := tmp_stem w; tmp_next := tmp_next w; clock := clock w;
     gtts_init := gtts_init w; gtts_audio := gtts_audio w |}.

Definition with_tmp_next (n : nat) (w : World) : World :=
  {| trace := trace w; pressed := pressed w; files := files w;
     tmp_stem := tmp_stem w; tmp_next := n; clock := clock w;
     gtts_init := gtts_init w; gtts_audio := gtts_audio w |}.

(** A computation either raises or returns, and leaves a world. *)
Definition Eff (A : Type) : Type := World -> (Exn + A) * World.

#[export] Instance Eff_ret : MRet Eff := fun A a w => (inr a, w).

#[export] Instance Eff_bind : MBind Eff := fun A B f m w =>
  match m w with
  | (inl e, w') => (inl e, w')
  | (inr a, w') => f a w'
  end.

Definition raise {A} (e : Exn) : Eff A := fun w => (inl e, w).

(** [try: body / except Exception as e: handler e] *)
Definition try_except {A} (body : Eff A) (handler : Exn -> Eff A) : Eff A :=
  fun w =>
    match body w with
    | (inl e, w') => handler e w'
    | (inr a, w') => (inr a, w')
    end.

Definition emit (e : Event) : Eff unit :=
  fun w => (inr tt, with_trace (trace w ++ [e]) w).

(** [st.button(label)] draws the button and answers whether it was
    pressed. *)
Definition button (label : pystr) : Eff bool :=
  fun w => (inr (pressed w label), with_trace (trace w ++ [st_button label]) w).

(** [st.download_button(...)], likewise. *)
Definition download_button (label : pystr) (data : list N)
    (file_name mime : pystr) : Eff bool :=
  fun w => (inr (pressed w label),
            with_trace (trace w ++ [st_download_button label data file_name mime]) w).

(** [l[0]] *)
Definition item0 {A} (l : list A) : Eff A :=
  match l with
  | x :: _ => mret x
  | [] => raise (Exception (py "list index out of range"))
  end.

(** [int(time.time())] *)
Definition time_now : Eff Z := fun w => (inr (clock w), w).

(** [os.path.exists(path)] and [open(path, 'rb').read()] *)
Definition path_exists (path : pystr) : Eff bool :=
  fun w => (inr (bool_decide (is_Some (files w !! path))), w).

Definition read_file (path : pystr) : Eff (list N) :=
  fun w =>
    match files w !! path with
    | Some data => (inr data, w)
    | None => (inl (Exception (py "No such file or directory")), w)
    end.

(** *** gTTS and tempfile *)

Record gTTS := { tts_text : pystr; tts_lang : pystr; tts_slow : bool }.

(** [gTTS(text=text, lang=lang, slow=slow)] *)
Definition gTTS_new (text lang : pystr) (slow : bool) : Eff gTTS :=
  fun w =>
    let w' := with_trace (trace w ++ [gTTS_call text lang slow]) w in
    match gtts_init w text lang slow with
    | Some e => (inl e, w')
    | None => (inr {| tts_text := text; tts_lang := lang; tts_slow := slow |}, w')
    end.

(** [tempfile.NamedTemporaryFile(delete=False, suffix=suffix)]: a new
    empty file that stays after the [with] block. *)
Definition NamedTemporaryFile (suffix : pystr) : Eff pystr :=
  fun w =>
    let name := tmp_stem w (tmp_next w) ++ suffix in
    (inr name,
     with_tmp_next (S (tmp_next w))
       (with_files (<[name := []]> (files w))
          (with_trace (trace w ++ [tempfile_call name]) w))).

(** [tts.save(name)] *)
Definition gTTS_save (tts : gTTS) (name : pystr) : Eff unit :=
  fun w =>
    let w' := with_trace (trace w ++ [save_call name]) w in
    match gtts_audio w (tts_text tts) (tts_lang tts) (tts_slow tts) with
    | inl e => (inl e, w')
    | inr data => (inr tt, with_files (<[name := data]> (files w')) w')
    end.

(** ** [EchoVerseConfig] *)

Record EchoVerseConfig := {
  WATSON_API_KEY : pystr;
  WATSON_URL : pystr;
  WATSONX_PROJECT_ID : pystr
}.

(** [EchoVerseConfig.__init__]: the three credentials start empty. *)
Definition EchoVerseConfig_init : EchoVerseConfig :=
  {| WATSON_API_KEY := []; WATSON_URL := []; WATSONX_PROJECT_ID := [] |}.

(** The list [missing] that [validate_credentials] collects. *)
Definition missing_credentials (self : EchoVerseConfig) : list pystr :=
  let missing := [] in
  let missing :=
    if negb (nonempty (WATSON_API_KEY self))
    then missing ++ [py "WATSON_API_KEY"] else missing in
  let missing :=
    if negb (nonempty (WATSON_URL self))
    then missing ++ [py "WATSON_URL"] else missing in
  let missing :=
    if negb (nonempty (WATSONX_PROJECT_ID self))
    then missing ++ [py "WATSONX_PROJECT_ID"] else missing in
  missing.

Definition validate_credentials (self : EchoVerseConfig) : Eff bool :=
  let missing := missing_credentials self in
  match missing with
  | _ :: _ =>
      emit (st_error (py "Missing credentials: " ++ join (py ", ") missing));;
      emit (st_info (py "Please set your IBM Watson credentials in the configuration section"));;
      mret false
  | [] => mret true
  end.

(** ** [TextRewriter] *)

(** The rewriter holds the configuration object; its [tone_prompts]
    table is filled by the constructor and read by no method. *)
Record TextRewriter := { config : EchoVerseConfig }.

Definition neutral_prefix : pystr :=
  py "In a clear and professional manner: ".

Arguments neutral_prefix : simpl never.

Definition _simulate_rewrite (text tone : pystr) : pystr :=
  if bool_decide (tone = py "Neutral") then
    neutral_prefix ++ text
  else if bool_decide (tone = py "Suspenseful") then
    py "With building tension and intrigue: " ++ text
      ++ py "... What happens next will surprise you."
  else if bool_decide (tone = py "Inspiring") then
    py "With great determination and hope: " ++ text
      ++ py " This is just the beginning of an incredible journey."
  else text.

(** [rewrite_text] with the call inside its [try] block left open:
    the source calls [self._simulate_rewrite] there. *)
Definition rewrite_text_with (backend : pystr -> pystr -> Eff pystr)
    (self : TextRewriter) (text tone : pystr) : Eff pystr :=
  ok ← validate_credentials (config self);
  if negb ok then mret text
  else
    try_except (backend text tone)
      (fun e =>
         emit (st_error (py "Error rewriting text: " ++ str_exn e));;
         mret text).

Definition rewrite_text : TextRewriter -> pystr -> pystr -> Eff pystr :=
  rewrite_text_with (fun text tone => mret (_simulate_rewrite text tone)).

(** ** [AudioGenerator] *)

Record AudioGenerator := { voices : gmap pystr pystr }.

(** [AudioGenerator.__init__] *)
Definition AudioGenerator_init : AudioGenerator :=
  {| voices :=
       <[py "Allison" := py "en-au"]>
         (<[py "Michael" := py "en-uk"]>
            (<[py "Lisa" := py "en-us"]> ∅)) |}.

Definition generate_audio (self : AudioGenerator) (text voice : pystr)
    : Eff (option pystr) :=
  try_except
    (let lang := default (py "en-us") (voices self !! voice) in
     code ← item0 (split_on 45 lang);
     tts ← gTTS_new text code false;
     tmp_file ← NamedTemporaryFile (py ".mp3");
     gTTS_save tts tmp_file;;
     mret (Some tmp_file))
    (fun e =>
       emit (st_error (py "Error generating audio: " ++ str_exn e));;
       mret None).

Definition create_audio_player (self : AudioGenerator)
    (audio_file : option pystr) : Eff unit :=
  match audio_file with
  | Some path =>
      if nonempty path then
        found ← path_exists path;
        if (found : bool) then
          audio_bytes ← read_file path;
          emit (st_audio audio_bytes (py "audio/mp3"))
        else mret tt
      else mret tt
  | None => mret tt
  end.

Definition create_download_button (self : AudioGenerator)
    (audio_file : option pystr) (filename : pystr) : Eff bool :=
  match audio_file with
  | Some path =>
      if nonempty path then
        found ← path_exists path;
        if (found : bool) then
          data ← read_file path;
          download_button (128229%N :: py " Download Audio") data
            filename (py "audio/mp3")
        else mret false
      else mret false
  | None => mret false
  end.

(** ** [EchoVerseApp] *)

Record EchoVerseApp := {
  app_config : EchoVerseConfig;
  rewriter : TextRewriter;
  audio_generator : AudioGenerator
}.

(** [EchoVerseApp.__init__]: the rewriter shares the application's
    configuration object. *)
Definition EchoVerseApp_of (cfg : EchoVerseConfig) : EchoVerseApp :=
  {| app_config := cfg;
     rewriter := {| config := cfg |};
     audio_generator := AudioGenerator_init |}.

Definition EchoVerseApp_init : EchoVerseApp :=
  EchoVerseApp_of EchoVerseConfig_init.

Definition generate_label : pystr := 128640%N :: py " Generate Audiobook".

Definition render_processing_section (self : EchoVerseApp)
    (text_content tone voice : pystr) : Eff (option pystr * option pystr) :=
  if negb (nonempty (strip text_content)) then
    emit (st_info (py "Please enter some text to continue."));;
    mret (None, None)
  else
    go ← button generate_label;
    if (go : bool) then
      emit (st_spinner (py "Processing your text..."));;
      rewritten_text ← rewrite_text (rewriter self) text_content tone;
      audio_file ← generate_audio (audio_generator self) rewritten_text voice;
      mret (Some rewritten_text, audio_file)
    else mret (None, None).

Definition render_audio_section (self : EchoVerseApp)
    (audio_file : option pystr) (rewritten_text : pystr) : Eff unit :=
  if truthy audio_file then
    emit (st_subheader (127925%N :: py " Generated Audiobook"));;
    emit (st_columns [3; 1]);;
    emit (st_markdown (py "**Listen to your audiobook:**"));;
    create_audio_player (audio_generator self) audio_file;;
    emit (st_markdown (py "**Download:**"));;
    now ← time_now;
    create_download_button (audio_generator self) audio_file
      (py "audiobook_" ++ str_int now ++ py ".mp3");;
    emit (st_info
            (128202%N :: py " **Audio Statistics**: "
               ++ str_nat (length rewritten_text) ++ py " characters, "
               ++ py "~" ++ str_nat (length (split rewritten_text)) ++ py " words, "
               ++ py "~" ++ str_nat (length rewritten_text / 200)
               ++ py " minutes estimated duration"))
  else mret tt.

(** ** Reading a run *)

(** The world after the events [l] were added to the trace. *)
Definition emits (l : list Event) (w : World) : World :=
  with_trace (trace w ++ l) w.

(** The events a run from [w] to [w'] added. *)
Definition new_events (w w' : World) : list Event :=
  drop (length (trace w)) (trace w').

(** All three credentials present: what [validate_credentials]
    answers. *)
Definition credentials_valid (cfg : EchoVerseConfig) : bool :=
  nonempty (WATSON_API_KEY cfg) && nonempty (WATSON_URL cfg)
  && nonempty (WATSONX_PROJECT_ID cfg).

(** The two diagnostics [validate_credentials] shows when a credential
    is missing. *)
Definition credential_diagnostics (cfg : EchoVerseConfig) : list Event :=
  if credentials_valid cfg then []
  else [st_error (py "Missing credentials: "
                    ++ join (py ", ") (missing_credentials cfg));
        st_info (py "Please set your IBM Watson credentials in the configuration section")].

(** The text [rewrite_text] returns. *)
Definition rewrite_result (cfg : EchoVerseConfig) (text tone : pystr) : pystr :=
  if credentials_valid cfg then _simulate_rewrite text tone else text.

(** The options of the two select boxes of
    [render_customization_section]. *)
Definition tones : list pystr :=
  [py "Neutral"; py "Suspenseful"; py "Inspiring"].

Definition voice_names : list pystr :=
  [py "Lisa"; py "Michael"; py "Allison"].

(** The language code [generate_audio] hands to gTTS for a voice. *)
Definition language_code (self : AudioGenerator) (voice : pystr) : pystr :=
  hd [] (split_on 45 (default (py "en-us") (voices self !! voice))).

(** gTTS raises on this request, when the object is built or when the
    audio is saved. *)
Definition engine_raises (w : World) (text lang : pystr) (slow : bool) : Prop :=
  (exists e, gtts_init w text lang slow = Some e)
  \/ (exists e, gtts_audio w text lang slow = inl e).

(** The synthesis call of a run from [w] to [w'] raised. *)
Definition synthesis_raised (w w' : World) : Prop :=
  exists text lang slow,
    In (gTTS_call text lang slow) (new_events w w')
    /\ engine_raises w text lang slow.

(** The requests a run from [w] to [w'] made to gTTS. *)
Definition gTTS_requests (w w' : World) : list (pystr * pystr * bool) :=
  omap (fun ev => match ev with
                  | gTTS_call text lang slow => Some (text, lang, slow)
                  | _ => None
                  end) (new_events w w').

(** The world [generate_audio] leaves once a temporary file exists. *)
Definition after_tempfile (data : list N) (l : list Event) (w : World) : World :=
  let name := tmp_stem w (tmp_next w) ++ py ".mp3" in
  with_tmp_next (S (tmp_next w))
    (with_files (<[name := data]> (files w)) (emits l w)).

(** The world in which [generate_audio] starts. *)
Definition before_audio (self : EchoVerseApp) (w : World) : World :=
  emits ([st_button generate_label; st_spinner (py "Processing your text...")]
           ++ credential_diagnostics (config (rewriter self))) w.

(** The line of statistics for a character count, a word count and
    an estimated duration in minutes. *)
Definition statistics_line
    (characterCount wordCount estimatedDurationMinutes : nat) : pystr :=
  128202%N :: py " **Audio Statistics**: "
    ++ str_nat characterCount ++ py " characters, ~"
    ++ str_nat wordCount ++ py " words, ~"
    ++ str_nat estimatedDurationMinutes ++ py " minutes estimated duration".

(** What [render_audio_section] shows for a file that exists. *)
Definition audio_section_events (data : list N) (now : Z) (text : pystr)
    : list Event :=
  [st_subheader (127925%N :: py " Generated Audiobook");
   st_columns [3; 1];
   st_markdown (py "**Listen to your audiobook:**");
   st_audio data (py "audio/mp3");
   st_markdown (py "**Download:**");
   st_download_button (128229%N :: py " Download Audio") data
     (py "audiobook_" ++ str_int now ++ py ".mp3") (py "audio/mp3");
   st_info (statistics_line (length text) (length (split text))
              (length text / 200))].

(** A text of 1000 characters in 150 words. *)
Definition sample_text_1000 : pystr :=
  concat (replicate 149 (py "abcde ")) ++ replicate 106 97%N.

(** *** Sample worlds *)

(** A fresh page where every button answers [click], and a gTTS whose
    constructor answers [init] and whose save answers [audio]. *)
Definition sample_world (click : bool) (init : option Exn)
    (audio : Exn + list N) : World :=
  {| trace := [];
     pressed := fun _ => click;
     files := ∅;
     tmp_stem := fun n => py "/tmp/tmp" ++ str_nat n;
     tmp_next := 0;
     clock := 1700000000;
     gtts_init := fun _ _ _ => init;
     gtts_audio := fun _ _ _ => audio |}.

Definition sample_config : EchoVerseConfig :=
  {| WATSON_API_KEY := py "key";
     WATSON_URL := py "https://example.invalid";
     WATSONX_PROJECT_ID := py "project" |}.

(** ** The rest of the page *)

(** What the whole page holds, in order: the events of the methods
    above and the elements only the remaining methods draw.  Placement
    in the sidebar or in a column is layout and is not recorded. *)
Inductive Element :=
| shown (e : Event)
| st_set_page_config (page_title page_icon layout : pystr)
| st_title (body : pystr)
| st_header (body : pystr)
| st_divider
| st_success (body : pystr)
| st_radio (label : pystr) (options : list pystr) (horizontal : bool)
| st_selectbox (label : pystr) (options : list pystr) (help : pystr)
| st_text_area (label value : pystr) (height : nat)
    (placeholder : option pystr) (disabled : bool) (key : option pystr)
| st_file_uploader (label : pystr) (type : list pystr) (help : pystr)
| st_text_input (label value : pystr) (password : bool) (help : pystr).

(** The object [st.file_uploader] answers with. *)
Record UploadedFile := { file_name : pystr; file_bytes : list N }.

(** What the user did before this run: the option picked in the radio
    or select box of a label (by position), the text entered in the
    text area or text input of a label ([None]: left untouched), and
    the file handed to the uploader. *)
Record User := {
  choice : pystr -> nat;
  typed : pystr -> option pystr;
  upload : option UploadedFile
}.

(** [utf8_decode] is [bytes.decode('utf-8')]: the text, or the
    exception it raises. *)
Record Session := {
  world : World;
  page : list Element;
  user : User;
  utf8_decode : list N -> Exn + pystr
}.

Definition with_world (w : World) (s : Session) : Session :=
  {| world := w; page := page s; user := user s;
     utf8_decode := utf8_decode s |}.

Definition with_page (p : list Element) (s : Session) : Session :=
  {| world := world s; page := p; user := user s;
     utf8_decode := utf8_decode s |}.

Definition Page (A : Type) : Type := Session -> (Exn + A) * Session.

#[export] Instance Page_ret : MRet Page := fun A a s => (inr a, s).

#[export] Instance Page_bind : MBind Page := fun A B f m s =>
  match m s with
  | (inl e, s') => (inl e, s')
  | (inr a, s') => f a s'
  end.

(** [try: body / except Exception as e: handler e] on the page. *)
Definition page_try {A} (body : Page A) (handler : Exn -> Page A) : Page A :=
  fun s =>
    match body s with
    | (inl e, s') => handler e s'
    | (inr a, s') => (inr a, s')
    end.

Definition show (el : Element) : Page unit :=
  fun s => (inr tt, with_page (page s ++ [el]) s).

(** A method of the first part, run on the page: its events are added
    to the page as they were to the trace. *)
Definition lift {A} (m : Eff A) : Page A :=
  fun s =>
    let r := m (world s) in
    (r.1, with_page (page s ++ map shown (new_events (world s) r.2))
            (with_world r.2 s)).

(** The option a radio or a select box answers: the one picked, the
    first one when nothing valid was picked. *)
Definition picked (i : nat) (options : list pystr) : pystr :=
  nth i options (hd [] options).

(** [st.radio(label, options, horizontal=horizontal)] *)
Definition radio (label : pystr) (options : list pystr) (horizontal : bool)
    : Page pystr :=
  fun s => (inr (picked (choice (user s) label) options),
            with_page (page s ++ [st_radio label options horizontal]) s).

(** [st.selectbox(label, options, help=help)] *)
Definition selectbox (label : pystr) (options : list pystr) (help : pystr)
    : Page pystr :=
  fun s => (inr (picked (choice (user s) label) options),
            with_page (page s ++ [st_selectbox label options help]) s).

(** [st.text_area(label, value=value, height=height, ...)]: the text
    entered, [value] when the area is disabled or was left untouched. *)
Definition text_area (label value : pystr) (height : nat)
    (placeholder : option pystr) (disabled : bool) (key : option pystr)
    : Page pystr :=
  fun s =>
    (inr (if disabled then value else default value (typed (user s) label)),
     with_page (page s ++ [st_text_area label value height placeholder disabled key]) s).

(** [st.text_input(label, value=value, type=..., help=help)] *)
Definition text_input (label value : pystr) (password : bool) (help : pystr)
    : Page pystr :=
  fun s => (inr (default value (typed (user s) label)),
            with_page (page s ++ [st_text_input label value password help]) s).

(** [st.file_uploader(label, type=type, help=help)] *)
Definition file_uploader (label : pystr) (type : list pystr) (help : pystr)
    : Page (option UploadedFile) :=
  fun s => (inr (upload (user s)),
            with_page (page s ++ [st_file_uploader label type help]) s).

(** [data.decode('utf-8')] *)
Definition decode (data : list N) : Page pystr :=
  fun s => (utf8_decode s data, s).

(** *** The remaining methods of [EchoVerseApp] *)

Definition setup_page (self : EchoVerseApp) : Page unit :=
  show (st_set_page_config (py "EchoVerse - AI Audiobook Creator")
          [127911%N] (py "wide")).

(** [EchoVerseApp()]: the constructor builds the three parts and sets
    up the page. *)
Definition EchoVerseApp_new : Page EchoVerseApp :=
  let self := EchoVerseApp_init in
  setup_page self;;
  mret self.

Definition render_header (self : EchoVerseApp) : Page unit :=
  show (st_title (127911%N :: py " EchoVerse - AI Audiobook Creator"));;
  lift (emit (st_markdown
                (10%N :: py "        Transform your text into expressive, downloadable audiobooks with customizable tones and voices."
                   ++ 10%N :: py "        Perfect for students, professionals, and accessibility needs."
                   ++ 10%N :: py "        ")));;
  show st_divider.

Definition render_input_section (self : EchoVerseApp) : Page pystr :=
  lift (emit (st_subheader (128221%N :: py " Input Your Text")));;
  input_method ← radio (py "Choose input method:")
                   [py "Paste Text"; py "Upload File"] true;
  let text_content := [] in
  if bool_decide (input_method = py "Paste Text") then
    text_content ← text_area (py "Paste your text here:") [] 200
                     (Some (py "Enter the text you want to convert to audiobook..."))
                     false None;
    mret text_content
  else
    uploaded_file ← file_uploader (py "Upload a text file:") [py "txt"]
                      (py "Upload a .txt file to convert to audiobook");
    match uploaded_file with
    | Some f =>
        page_try
          (text_content ← decode (file_bytes f);
           show (st_success (py "File '" ++ file_name f
                               ++ py "' uploaded successfully!"));;
           mret text_content)
          (fun e =>
             lift (emit (st_error (py "Error reading file: " ++ str_exn e)));;
             mret text_content)
    | None => mret text_content
    end.

Definition render_customization_section (self : EchoVerseApp)
    : Page (pystr * pystr) :=
  lift (emit (st_subheader (127912%N :: py " Customization Options")));;
  lift (emit (st_columns [1; 1]));;
  tone ← selectbox (py "Select Tone:")
           [py "Neutral"; py "Suspenseful"; py "Inspiring"]
           (py "Choose the tone for your audiobook");
  voice ← selectbox (py "Select Voice:")
            [py "Lisa"; py "Michael"; py "Allison"]
            (py "Choose the narrator voice");
  mret (tone, voice).

Definition render_comparison_section (self : EchoVerseApp)
    (original_text : pystr) (rewritten_text : option pystr) : Page unit :=
  match rewritten_text with
  | Some rewritten =>
      if nonempty rewritten then
        lift (emit (st_subheader (128203%N :: py " Text Comparison")));;
        lift (emit (st_columns [1; 1]));;
        lift (emit (st_markdown (py "**Original Text:**")));;
        text_area [] original_text 300 None true (Some (py "orig"));;
        lift (emit (st_markdown (py "**Tone-Adapted Text:**")));;
        text_area [] rewritten 300 None true (Some (py "rewritten"));;
        mret tt
      else mret tt
  | None => mret tt
  end.

(** The configuration object is shared by the application and its
    rewriter: an assignment to one of its attributes is seen by both. *)
Definition set_config (cfg : EchoVerseConfig) (self : EchoVerseApp)
    : EchoVerseApp :=
  {| app_config := cfg;
     rewriter := {| config := cfg |};
     audio_generator := audio_generator self |}.

Definition render_credentials_section (self : EchoVerseApp)
    : Page EchoVerseApp :=
  show (st_header ([9881; 65039]%N ++ py " Configuration"));;
  lift (emit (st_markdown (py "### IBM Watson Credentials")));;
  api_key ← text_input (py "API Key:") (WATSON_API_KEY (app_config self))
              true (py "Your IBM Watson API key");
  let self :=
    set_config {| WATSON_API_KEY := api_key;
                  WATSON_URL := WATSON_URL (app_config self);
                  WATSONX_PROJECT_ID := WATSONX_PROJECT_ID (app_config self) |}
      self in
  url ← text_input (py "Service URL:") (WATSON_URL (app_config self))
          false (py "Your IBM Watson service URL");
  let self :=
    set_config {| WATSON_API_KEY := WATSON_API_KEY (app_config self);
                  WATSON_URL := url;
                  WATSONX_PROJECT_ID := WATSONX_PROJECT_ID (app_config self) |}
      self in
  project_id ← text_input (py "Watsonx Project ID:")
                 (WATSONX_PROJECT_ID (app_config self))
                 true (py "Your Watsonx project ID");
  let self :=
    set_config {| WATSON_API_KEY := WATSON_API_KEY (app_config self);
                  WATSON_URL := WATSON_URL (app_config self);
                  WATSONX_PROJECT_ID := project_id |}
      self in
  lift (emit (st_markdown (py "---")));;
  lift (emit (st_markdown (py "### About EchoVerse")));;
  lift (emit (st_markdown
                (10%N :: py "            - " ++ 127919%N :: py " **Tone-Adaptive Rewriting**"
                   ++ 10%N :: py "            - " ++ [128483; 65039]%N ++ py " **Natural Voice Synthesis** "
                   ++ 10%N :: py "            - " ++ 128229%N :: py " **Downloadable Audio**"
                   ++ 10%N :: py "            - " ++ 128202%N :: py " **Text Comparison**"
                   ++ 10%N :: py "            - " ++ 9855%N :: py " **Accessibility Focused**"
                   ++ 10%N :: py "            ")));;
  mret self.

Definition run (self : EchoVerseApp) : Page unit :=
  render_header self;;
  self ← render_credentials_section self;
  text_content ← render_input_section self;
  selection ← render_customization_section self;
  let '(tone, voice) := selection in
  show st_divider;;
  result ← lift (render_processing_section self text_content tone voice);
  let '(rewritten_text, audio_file) := result in
  match rewritten_text with
  | Some rewritten =>
      if nonempty rewritten then
        render_comparison_section self text_content rewritten_text;;
        show st_divider;;
        lift (render_audio_section self audio_file rewritten)
      else mret tt
  | None => mret tt
  end.

Definition main : Page unit :=
  app ← EchoVerseApp_new;
  run app.

(** *** Reading a run of the page *)

(** The events among the elements of a page. *)
Definition events_of (l : list Element) : list Event :=
  omap (fun el => match el with shown e => Some e | _ => None end) l.

(** The session after a step that left the world [w] and added the
    elements [l]. *)
Definition advance (w : World) (l : list Element) (s : Session) : Session :=
  with_page (page s ++ l) (with_world w s).

(** The session after a step that only drew the elements [l]. *)
Definition draws (l : list Element) (s : Session) : Session :=
  advance (emits (events_of l) (world s)) l s.

(** The elements a run from [s] to [s'] added to the page. *)
Definition new_elements (s s' : Session) : list Element :=
  drop (length (page s)) (page s').

(** The credentials after the sidebar: what was entered, the value
    held before where an input was left untouched. *)
Definition entered_config (cfg : EchoVerseConfig) (u : User) : EchoVerseConfig :=
  {| WATSON_API_KEY := default (WATSON_API_KEY cfg) (typed u (py "API Key:"));
     WATSON_URL := default (WATSON_URL cfg) (typed u (py "Service URL:"));
     WATSONX_PROJECT_ID :=
       default (WATSONX_PROJECT_ID cfg) (typed u (py "Watsonx Project ID:")) |}.

(** The tone and the voice the two select boxes answer. *)
Definition chosen_tone (u : User) : pystr :=
  picked (choice u (py "Select Tone:")) tones.

Definition chosen_voice (u : User) : pystr :=
  picked (choice u (py "Select Voice:")) voice_names.

Definition header_elements : list Element :=
  [st_title (127911%N :: py " EchoVerse - AI Audiobook Creator");
   shown (st_markdown
            (10%N :: py "        Transform your text into expressive, downloadable audiobooks with customizable tones and voices."
               ++ 10%N :: py "        Perfect for students, professionals, and accessibility needs."
               ++ 10%N :: py "        "));
   st_divider].

Definition credentials_elements (cfg : EchoVerseConfig) : list Element :=
  [st_header ([9881; 65039]%N ++ py " Configuration");
   shown (st_markdown (py "### IBM Watson Credentials"));
   st_text_input (py "API Key:") (WATSON_API_KEY cfg) true
     (py "Your IBM Watson API key");
   st_text_input (py "Service URL:") (WATSON_URL cfg) false
     (py "Your IBM Watson service URL");
   st_text_input (py "Watsonx Project ID:") (WATSONX_PROJECT_ID cfg) true
     (py "Your Watsonx project ID");
   shown (st_markdown (py "---"));
   shown (st_markdown (py "### About EchoVerse"));
   shown (st_markdown
            (10%N :: py "            - " ++ 127919%N :: py " **Tone-Adaptive Rewriting**"
               ++ 10%N :: py "            - " ++ [128483; 65039]%N ++ py " **Natural Voice Synthesis** "
               ++ 10%N :: py "            - " ++ 128229%N :: py " **Downloadable Audio**"
               ++ 10%N :: py "            - " ++ 128202%N :: py " **Text Comparison**"
               ++ 10%N :: py "            - " ++ 9855%N :: py " **Accessibility Focused**"
               ++ 10%N :: py "            "))].

(** The text [render_input_section] returns and the elements it
    draws. *)
Definition input_outcome (u : User) (dec : list N -> Exn + pystr)
    : pystr * list Element :=
  let head :=
    [shown (st_subheader (128221%N :: py " Input Your Text"));
     st_radio (py "Choose input method:") [py "Paste Text"; py "Upload File"]
       true] in
  let uploader :=
    st_file_uploader (py "Upload a text file:") [py "txt"]
      (py "Upload a .txt file to convert to audiobook") in
  if bool_decide (picked (choice u (py "Choose input method:"))
                    [py "Paste Text"; py "Upload File"] = py "Paste Text")
  then
    (default [] (typed u (py "Paste your text here:")),
     head ++ [st_text_area (py "Paste your text here:") [] 200
                (Some (py "Enter the text you want to convert to audiobook..."))
                false None])
  else
    match upload u with
    | None => ([], head ++ [uploader])
    | Some f =>
        match dec (file_bytes f) with
        | inr text =>
            (text,
             head ++ [uploader;
                      st_success (py "File '" ++ file_name f
                                    ++ py "' uploaded successfully!")])
        | inl e =>
            ([],
             head ++ [uploader;
                      shown (st_error (py "Error reading file: " ++ str_exn e))])
        end
    end.

Definition customization_elements : list Element :=
  [shown (st_subheader (127912%N :: py " Customization Options"));
   shown (st_columns [1; 1]);
   st_selectbox (py "Select Tone:")
     [py "Neutral"; py "Suspenseful"; py "Inspiring"]
     (py "Choose the tone for your audiobook");
   st_selectbox (py "Select Voice:") [py "Lisa"; py "Michael"; py "Allison"]
     (py "Choose the narrator voice")].

Definition comparison_elements (original rewritten : pystr) : list Element :=
  [shown (st_subheader (128203%N :: py " Text Comparison"));
   shown (st_columns [1; 1]);
   shown (st_markdown (py "**Original Text:**"));
   st_text_area [] original 300 None true (Some (py "orig"));
   shown (st_markdown (py "**Tone-Adapted Text:**"));
   st_text_area [] rewritten 300 None true (Some (py "rewritten"))].

(** Everything [run] draws before the processing step. *)
Definition front_elements (self : EchoVerseApp) (s : Session) : list Element :=
  header_elements ++ credentials_elements (app_config self)
    ++ (input_outcome (user s) (utf8_decode s)).2
    ++ customization_elements ++ [st_divider].

(** The last part of [run]: what is drawn for a result of the
    processing step. *)
Definition show_results (self : EchoVerseApp) (text_content : pystr)
    (result : option pystr * option pystr) : Page unit :=
  let '(rewritten_text, audio_file) := result in
  match rewritten_text with
  | Some rewritten =>
      if nonempty rewritten then
        render_comparison_section self text_content rewritten_text;;
        show st_divider;;
        lift (render_audio_section self audio_file rewritten)
      else mret tt
  | None => mret tt
  end.

(** *** Sample sessions *)

Definition sample_user (method : nat) (pasted : option pystr)
    (file : option UploadedFile) (credentials : option pystr) : User :=
  {| choice := fun label =>
       if bool_decide (label = py "Choose input method:") then method else 1;
     typed := fun label =>
       if bool_decide (label = py "Paste your text here:") then pasted
       else credentials;
     upload := file |}.

(** A decoder for the samples: bytes below 128 are their characters,
    anything else is refused. *)
Definition ascii_decode (data : list N) : Exn + pystr :=
  if forallb (fun b => (b <? 128)%N) data then inr data
  else inl (Exception (py "'utf-8' codec can't decode byte"))  .

Definition sample_session (w : World) (u : User) : Session :=
  {| world := w; page := []; user := u; utf8_decode := ascii_decode |}.

(** * Properties *)

(** ** Strings *)

Example strip_blank : strip (py "  " ++ [9; 10; 160]%N) = [].
Proof. reflexivity. Qed.

Example strip_inner : strip (py "  a b  ") = py "a b".
Proof. reflexivity. Qed.

Example split_words : split (py " ab  c ") = [py "ab"; py "c"].
Proof. reflexivity. Qed.

Example split_locale : split_on 45 (py "en-us") = [py "en"; py "us"].
Proof. reflexivity. Qed.

Example join_names :
  join (py ", ") [py "A"; py "B"; py "C"] = py "A, B, C".
Proof. reflexivity. Qed.

Example str_nat_1000 : str_nat 1000 = py "1000" /\ str_nat 0 = py "0".
Proof. split; reflexivity. Qed.

Section Strings.

Lemma lstrip_blank (s : pystr) :
  forallb isspace s = true -> lstrip s = [].
Proof.
  induction s as [|c s IH]; simpl; [reflexivity|].
  destruct (isspace c); simpl; [exact IH | discriminate].
Qed.

Lemma lstrip_nil_blank (s : pystr) :
  lstrip s = [] -> forallb isspace s = true.
Proof.
  induction s as [|c s IH]; simpl; [reflexivity|].
  destruct (isspace c); simpl; [exact IH | discriminate].
Qed.

(** What [lstrip] leaves starts with a character that is not
    whitespace. *)
Lemma lstrip_head (s : pystr) c r :
  lstrip s = c :: r -> isspace c = false.
Proof.
  induction s as [|a s IH]; simpl; [discriminate|].
  destruct (isspace a) eqn:Ha; [exact IH|].
  intros [= <- _]. exact Ha.
Qed.

Lemma forallb_rev_eq {A} (f : A -> bool) (s : list A) :
  forallb f (rev s) = forallb f s.
Proof.
  induction s as [|c s IH]; simpl; [reflexivity|].
  rewrite forallb_app, IH. simpl.
  destruct (f c), (forallb f s); reflexivity.
Qed.

(** [text.strip()] is empty exactly for a text that is empty or made
    of whitespace only. *)
Lemma strip_nil_iff (s : pystr) :
  strip s = [] <-> forallb isspace s = true.
Proof.
  unfold strip, rstrip. split.
  - intros H.
    assert (Hl : lstrip (rev (lstrip s)) = []).
    { destruct (lstrip (rev (lstrip s))) as [|a l]; [reflexivity|].
      simpl in H. destruct (rev l); discriminate. }
    apply lstrip_nil_blank in Hl. rewrite forallb_rev_eq in Hl.
    destruct (lstrip s) as [|c r] eqn:E.
    + apply lstrip_nil_blank, E.
    + apply lstrip_head in E. simpl in Hl. rewrite E in Hl. discriminate.
  - intros H. rewrite (lstrip_blank s H). reflexivity.
Qed.

Lemma nonempty_strip (s : pystr) :
  nonempty (strip s) = negb (forallb isspace s).
Proof.
  destruct (forallb isspace s) eqn:E.
  - apply strip_nil_iff in E. rewrite E. reflexivity.
  - destruct (strip s) eqn:Es; [|reflexivity].
    apply strip_nil_iff in Es. congruence.
Qed.

Lemma nonempty_true (s : pystr) : nonempty s = true <-> s <> [].
Proof. destruct s; simpl; split; congruence. Qed.

(** The words of [s.split()] are the non-whitespace characters of [s],
    in order, cut into non-empty pieces. *)
Lemma split_from_concat cur (s : pystr) :
  concat (split_from cur s)
  = rev cur ++ List.filter (fun c => negb (isspace c)) s.
Proof.
  revert cur. induction s as [|c s IH]; intros cur; simpl.
  - destruct cur; simpl; rewrite ?app_nil_r; reflexivity.
  - destruct (isspace c); simpl.
    + destruct cur; simpl; rewrite IH; reflexivity.
    + rewrite IH. simpl. rewrite <- app_assoc. reflexivity.
Qed.

Lemma split_concat (s : pystr) :
  concat (split s) = List.filter (fun c => negb (isspace c)) s.
Proof. unfold split. rewrite split_from_concat. reflexivity. Qed.

Lemma split_from_words cur (s : pystr) :
  forallb (fun c => negb (isspace c)) cur = true ->
  Forall (fun t => t <> [] /\ forallb (fun c => negb (isspace c)) t = true)
    (split_from cur s).
Proof.
  revert cur. induction s as [|c s IH]; intros cur Hcur; simpl.
  - destruct cur as [|a cur]; constructor; [|constructor].
    split; [|rewrite forallb_rev_eq; exact Hcur].
    simpl. intros E. apply app_eq_nil in E as [_ E]. discriminate E.
  - destruct (isspace c) eqn:Hc.
    + destruct cur as [|a cur]; [apply IH; reflexivity|].
      constructor; [|apply IH; reflexivity].
      split; [|rewrite forallb_rev_eq; exact Hcur].
      simpl. intros E. apply app_eq_nil in E as [_ E]. discriminate E.
    + apply IH. simpl. rewrite Hc. exact Hcur.
Qed.

Lemma split_words_nonempty (s : pystr) :
  Forall (fun t => t <> [] /\ forallb (fun c => negb (isspace c)) t = true)
    (split s).
Proof. apply split_from_words. reflexivity. Qed.

Lemma split_on_from_cons sep cur (s : pystr) :
  exists x l, split_on_from sep cur s = x :: l.
Proof.
  revert cur. induction s as [|c s IH]; intros cur; simpl; [eauto|].
  destruct (c =? sep)%N; eauto.
Qed.

(** [s.split(sep)[0]] never raises. *)
Lemma item0_split_on sep (s : pystr) :
  item0 (split_on sep s) = mret (hd [] (split_on sep s)).
Proof.
  unfold split_on. destruct (split_on_from_cons sep [] s) as (x & l & ->).
  reflexivity.
Qed.

Lemma startswith_app (p s : pystr) : startswith p (p ++ s) = true.
Proof.
  induction p as [|a p IH]; simpl; [reflexivity|].
  rewrite N.eqb_refl. exact IH.
Qed.

Lemma contains_app (p a b : pystr) : contains p (a ++ p ++ b) = true.
Proof.
  induction a as [|c a IH]; simpl.
  - destruct (p ++ b) eqn:E; simpl; rewrite <- E, startswith_app; reflexivity.
  - rewrite IH. apply orb_true_r.
Qed.

End Strings.

(** ** Runs of the methods *)

Section Runs.

Lemma emits_nil w : emits [] w = w.
Proof. destruct w. unfold emits, with_trace. simpl. rewrite app_nil_r. reflexivity. Qed.

Lemma emits_emits l1 l2 w : emits l2 (emits l1 w) = emits (l1 ++ l2) w.
Proof. unfold emits, with_trace. simpl. rewrite app_assoc. reflexivity. Qed.

Lemma new_events_emits l w : new_events w (emits l w) = l.
Proof. unfold new_events. simpl. apply drop_app_length. Qed.

Lemma credentials_valid_missing cfg :
  credentials_valid cfg = true <-> missing_credentials cfg = [].
Proof.
  destruct cfg as [[|? ?] [|? ?] [|? ?]];
    unfold credentials_valid, missing_credentials; simpl;
    split; intros H; try reflexivity; discriminate H.
Qed.

Lemma validate_credentials_run cfg w :
  validate_credentials cfg w
  = (inr (credentials_valid cfg), emits (credential_diagnostics cfg) w).
Proof.
  unfold validate_credentials, credential_diagnostics.
  destruct (credentials_valid cfg) eqn:E.
  - apply credentials_valid_missing in E. rewrite E, emits_nil. reflexivity.
  - destruct (missing_credentials cfg) eqn:Em.
    + apply credentials_valid_missing in Em. congruence.
    + unfold mbind, Eff_bind, mret, Eff_ret, emit, emits, with_trace. simpl.
      rewrite <- app_assoc. reflexivity.
Qed.

Lemma rewrite_text_with_run backend self text tone w :
  rewrite_text_with backend self text tone w
  = if credentials_valid (config self) then
      match backend text tone w with
      | (inr t, w') => (inr t, w')
      | (inl e, w') =>
          (inr text, emits [st_error (py "Error rewriting text: " ++ str_exn e)] w')
      end
    else (inr text, emits (credential_diagnostics (config self)) w).
Proof.
  unfold rewrite_text_with, mbind, Eff_bind.
  rewrite validate_credentials_run.
  unfold credential_diagnostics.
  destruct (credentials_valid (config self)); simpl; [|reflexivity].
  rewrite emits_nil. unfold try_except.
  destruct (backend text tone w) as [[e|t] w']; reflexivity.
Qed.

Lemma rewrite_text_run self text tone w :
  rewrite_text self text tone w
  = (inr (rewrite_result (config self) text tone),
     emits (credential_diagnostics (config self)) w).
Proof.
  unfold rewrite_text. rewrite rewrite_text_with_run.
  unfold rewrite_result, credential_diagnostics.
  destruct (credentials_valid (config self)); [|reflexivity].
  rewrite emits_nil. reflexivity.
Qed.

Lemma generate_audio_run self text voice w :
  generate_audio self text voice w
  = let code := language_code self voice in
    let name := tmp_stem w (tmp_next w) ++ py ".mp3" in
    match gtts_init w text code false with
    | Some e =>
        (inr None,
         emits [gTTS_call text code false;
                st_error (py "Error generating audio: " ++ str_exn e)] w)
    | None =>
        match gtts_audio w text code false with
        | inl e =>
            (inr None,
             after_tempfile []
               [gTTS_call text code false; tempfile_call name; save_call name;
                st_error (py "Error generating audio: " ++ str_exn e)] w)
        | inr data =>
            (inr (Some name),
             after_tempfile data
               [gTTS_call text code false; tempfile_call name; save_call name] w)
        end
    end.
Proof.
  unfold generate_audio, try_except, mbind, Eff_bind, language_code.
  rewrite item0_split_on.
  unfold mret, Eff_ret, gTTS_new, NamedTemporaryFile, gTTS_save, emit,
    after_tempfile, emits, with_tmp_next, with_files, with_trace.
  simpl.
  destruct (gtts_init w text _ false) as [e|]; simpl.
  - rewrite <- app_assoc. reflexivity.
  - destruct (gtts_audio w text _ false) as [e|data]; simpl.
    + rewrite <- !app_assoc. reflexivity.
    + rewrite <- !app_assoc, insert_insert_eq. reflexivity.
Qed.

(** [generate_audio] returns [None] exactly when gTTS raises. *)
Lemma generate_audio_none self text voice w :
  (generate_audio self text voice w).1 = inr None
  <-> engine_raises w text (language_code self voice) false.
Proof.
  rewrite generate_audio_run. unfold engine_raises. simpl.
  destruct (gtts_init w text _ false) as [e|] eqn:Ei.
  - split; [eauto | reflexivity].
  - destruct (gtts_audio w text _ false) as [e|data] eqn:Ea; simpl.
    + split; [eauto | reflexivity].
    + split; [discriminate|].
      intros [[e He]|[e He]]; discriminate He.
Qed.

Lemma render_processing_section_blank self text tone voice w :
  nonempty (strip text) = false ->
  render_processing_section self text tone voice w
  = (inr (None, None),
     emits [st_info (py "Please enter some text to continue.")] w).
Proof.
  intros H. unfold render_processing_section. rewrite H. reflexivity.
Qed.

Lemma render_processing_section_idle self text tone voice w :
  nonempty (strip text) = true ->
  pressed w generate_label = false ->
  render_processing_section self text tone voice w
  = (inr (None, None), emits [st_button generate_label] w).
Proof.
  intros H Hp. unfold render_processing_section. rewrite H. simpl.
  unfold mbind, Eff_bind, button. rewrite Hp. reflexivity.
Qed.

Lemma render_processing_section_go self text tone voice w :
  nonempty (strip text) = true ->
  pressed w generate_label = true ->
  render_processing_section self text tone voice w
  = let rewritten := rewrite_result (config (rewriter self)) text tone in
    match generate_audio (audio_generator self) rewritten voice
            (before_audio self w) with
    | (inr audio_file, w') => (inr (Some rewritten, audio_file), w')
    | (inl e, w') => (inl e, w')
    end.
Proof.
  intros H Hp. unfold render_processing_section. rewrite H. simpl.
  unfold mbind at 1, Eff_bind at 1, button. rewrite Hp.
  unfold mbind at 1, Eff_bind at 1, emit at 1.
  unfold mbind at 1, Eff_bind at 1. rewrite rewrite_text_run.
  unfold mbind at 1, Eff_bind at 1, before_audio.
  rewrite <- emits_emits.
  replace (emits [st_button generate_label; st_spinner (py "Processing your text...")] w)
    with (with_trace
            (trace (with_trace (trace w ++ [st_button generate_label]) w)
               ++ [st_spinner (py "Processing your text...")])
            (with_trace (trace w ++ [st_button generate_label]) w)).
  2:{ unfold emits, with_trace. simpl. rewrite <- app_assoc. reflexivity. }
  destruct (generate_audio _ _ _ _) as [[e|a] w']; reflexivity.
Qed.

End Runs.

(** ** The tone rewriter *)

Section Rewriter.

Lemma simulate_rewrite_neutral text :
  _simulate_rewrite text (py "Neutral") = neutral_prefix ++ text.
Proof. reflexivity. Qed.

Lemma simulate_rewrite_suspenseful text :
  _simulate_rewrite text (py "Suspenseful")
  = py "With building tension and intrigue: " ++ text
      ++ py "... What happens next will surprise you.".
Proof. reflexivity. Qed.

Lemma simulate_rewrite_inspiring text :
  _simulate_rewrite text (py "Inspiring")
  = py "With great determination and hope: " ++ text
      ++ py " This is just the beginning of an incredible journey.".
Proof. reflexivity. Qed.

(** A tone outside the three names falls through every branch. *)
Lemma simulate_rewrite_other text tone :
  ~ In tone tones -> _simulate_rewrite text tone = text.
Proof.
  intros H. unfold _simulate_rewrite.
  repeat case_bool_decide; try reflexivity; subst tone;
    exfalso; apply H; unfold tones; simpl; tauto.
Qed.

Lemma simulate_rewrite_length text tone :
  length text <= length (_simulate_rewrite text tone).
Proof.
  unfold _simulate_rewrite.
  repeat case_bool_decide; rewrite ?length_app; lia.
Qed.

(** For the three tones the template adds at least its prefix. *)
Lemma simulate_rewrite_longer text tone :
  In tone tones -> length text + 35 <= length (_simulate_rewrite text tone).
Proof.
  unfold tones. simpl. intros [<-|[<-|[<-|[]]]].
  - rewrite simulate_rewrite_neutral, length_app.
    change (length neutral_prefix) with 36. lia.
  - rewrite simulate_rewrite_suspenseful, !length_app.
    change (length (py "With building tension and intrigue: ")) with 36. lia.
  - rewrite simulate_rewrite_inspiring, !length_app.
    change (length (py "With great determination and hope: ")) with 35. lia.
Qed.

Lemma rewrite_result_length cfg text tone :
  length text <= length (rewrite_result cfg text tone).
Proof.
  unfold rewrite_result. destruct (credentials_valid cfg); [|lia].
  apply simulate_rewrite_length.
Qed.

Lemma rewrite_result_nonempty cfg text tone :
  text <> [] -> rewrite_result cfg text tone <> [].
Proof.
  intros H E. pose proof (rewrite_result_length cfg text tone) as L.
  rewrite E in L. destruct text; [congruence | simpl in L; lia].
Qed.

End Rewriter.

(** ** Claims about the tone rewriter *)

(** C1: for a non-empty text and one of the three tones,
    [rewrite_text] (and [_simulate_rewrite] under it) returns a
    non-empty text at least as long as the input, and the returned text
    is fixed by the text, the tone and the credentials: the page, the
    files, the clock and the speech service play no part. *)
Theorem C1_rewrite_nonempty_longer_deterministic :
  forall (self : TextRewriter) (text tone : pystr) (w : World),
    text <> [] ->
    In tone tones ->
    exists out,
      (rewrite_text self text tone w).1 = inr out
      /\ out <> []
      /\ length text <= length out
      /\ _simulate_rewrite text tone <> []
      /\ length text <= length (_simulate_rewrite text tone)
      /\ forall (self' : TextRewriter) (w' : World),
           config self' = config self ->
           (rewrite_text self' text tone w').1 = inr out.
Proof.
  intros self text tone w Hne Htone.
  exists (rewrite_result (config self) text tone).
  rewrite rewrite_text_run. simpl.
  pose proof (simulate_rewrite_length text tone) as Hl.
  repeat split.
  - apply rewrite_result_nonempty, Hne.
  - apply rewrite_result_length.
  - intros E. rewrite E in Hl. destruct text; [congruence | simpl in Hl; lia].
  - exact Hl.
  - intros self' w' Hcfg. rewrite rewrite_text_run, Hcfg. reflexivity.
Qed.

Lemma C1_witness :
  py "Hello world" <> [] /\ In (py "Suspenseful") tones
  /\ exists out,
       (rewrite_text {| config := sample_config |} (py "Hello world")
          (py "Suspenseful") (sample_world true None (inr []))).1 = inr out
       /\ out <> [].
Proof.
  assert (H1 : py "Hello world" <> []) by (vm_compute; discriminate).
  assert (H2 : In (py "Suspenseful") tones) by (right; left; reflexivity).
  split; [exact H1 | split; [exact H2|]].
  destruct (C1_rewrite_nonempty_longer_deterministic
              {| config := sample_config |} (py "Hello world")
              (py "Suspenseful") (sample_world true None (inr [])) H1 H2)
    as (out & Hr & Hn & _).
  exists out. split; assumption.
Defined.

(** C5, as the code has it: when a credential is missing,
    [rewrite_text] shows the two diagnostics and returns the text it
    was given, unchanged; whatever stands in the [try] block, the
    simulated rewrite included, is not run.  It returns normally, so the
    pipeline goes on. *)
Theorem C5_missing_credentials_return_input :
  forall (backend : pystr -> pystr -> Eff pystr) (self : TextRewriter)
         (text tone : pystr) (w : World),
    credentials_valid (config self) = false ->
    rewrite_text_with backend self text tone w
    = (inr text,
       emits [st_error (py "Missing credentials: "
                          ++ join (py ", ") (missing_credentials (config self)));
              st_info (py "Please set your IBM Watson credentials in the configuration section")]
         w)
    /\ rewrite_text self text tone w = rewrite_text_with backend self text tone w.
Proof.
  intros backend self text tone w H.
  unfold rewrite_text. rewrite !rewrite_text_with_run.
  unfold credential_diagnostics. rewrite H. split; reflexivity.
Qed.

Lemma C5_witness :
  credentials_valid EchoVerseConfig_init = false
  /\ (rewrite_text {| config := EchoVerseConfig_init |} (py "Hello world")
        (py "Inspiring") (sample_world true None (inr []))).1
     = inr (py "Hello world").
Proof.
  split; [reflexivity|].
  destruct (C5_missing_credentials_return_input
              (fun text tone => mret (_simulate_rewrite text tone))
              {| config := EchoVerseConfig_init |} (py "Hello world")
              (py "Inspiring") (sample_world true None (inr [])) eq_refl)
    as [H1 H2].
  rewrite H2, H1. reflexivity.
Defined.

(** C5 as stated fails: with the credentials of a fresh configuration,
    [rewrite_text] returns the input itself, not the Neutral template
    around it. *)
Lemma C5_counterexample :
  let self := {| config := EchoVerseConfig_init |} in
  let w := sample_world true None (inr []) in
  credentials_valid (config self) = false
  /\ (rewrite_text self (py "Hello world") (py "Neutral") w).1
     = inr (py "Hello world")
  /\ (rewrite_text self (py "Hello world") (py "Neutral") w).1
     <> inr (_simulate_rewrite (py "Hello world") (py "Neutral")).
Proof.
  vm_compute. repeat split; discriminate.
Qed.

(** C6, as the code has it: [rewrite_text] raises for no tone; for a
    tone outside the three names both [_simulate_rewrite] and
    [rewrite_text] hand the text back unchanged. *)
Theorem C6_unknown_tone_returns_input :
  forall (self : TextRewriter) (text tone : pystr) (w : World),
    (exists out, (rewrite_text self text tone w).1 = inr out)
    /\ (~ In tone tones ->
        _simulate_rewrite text tone = text
        /\ (rewrite_text self text tone w).1 = inr text).
Proof.
  intros self text tone w. rewrite rewrite_text_run. simpl.
  split; [eauto|].
  intros H. pose proof (simulate_rewrite_other text tone H) as E.
  split; [exact E|].
  unfold rewrite_result. rewrite E. destruct (credentials_valid _); reflexivity.
Qed.

Lemma C6_witness :
  ~ In (py "Angry") tones
  /\ (rewrite_text {| config := sample_config |} (py "Hello") (py "Angry")
        (sample_world true None (inr []))).1 = inr (py "Hello").
Proof.
  assert (H : ~ In (py "Angry") tones).
  { unfold tones. simpl. intros [E|[E|[E|[]]]]; vm_compute in E; discriminate E. }
  split; [exact H|].
  apply (C6_unknown_tone_returns_input {| config := sample_config |}
           (py "Hello") (py "Angry") (sample_world true None (inr []))), H.
Defined.

(** C6 as stated fails: for the tone "Angry", with every credential
    set, [rewrite_text] returns the text and raises nothing. *)
Lemma C6_counterexample :
  ~ In (py "Angry") tones
  /\ ~ (exists e,
          (rewrite_text {| config := sample_config |} (py "Hello") (py "Angry")
             (sample_world true None (inr []))).1 = inl e)
  /\ (rewrite_text {| config := sample_config |} (py "Hello") (py "Angry")
        (sample_world true None (inr []))).1 = inr (py "Hello").
Proof.
  split; [|split].
  - unfold tones. simpl. intros [E|[E|[E|[]]]]; vm_compute in E; discriminate E.
  - intros [e He]. vm_compute in He. discriminate He.
  - vm_compute. reflexivity.
Qed.

(** C10: [rewrite_text] raises for no input.  Whatever the call in its
    [try] block does, the caller gets a string; when that call raises,
    the error is shown and the original text is returned. *)
Theorem C10_rewrite_text_never_raises :
  forall (backend : pystr -> pystr -> Eff pystr) (self : TextRewriter)
         (text tone : pystr) (w : World),
    (exists out w', rewrite_text_with backend self text tone w = (inr out, w'))
    /\ (exists out w', rewrite_text self text tone w = (inr out, w'))
    /\ (forall e w1,
          credentials_valid (config self) = true ->
          backend text tone w = (inl e, w1) ->
          rewrite_text_with backend self text tone w
          = (inr text,
             emits [st_error (py "Error rewriting text: " ++ str_exn e)] w1)).
Proof.
  intros backend self text tone w. repeat split.
  - rewrite rewrite_text_with_run.
    destruct (credentials_valid (config self)); [|eauto].
    destruct (backend text tone w) as [[e|t] w']; eauto.
  - rewrite rewrite_text_run. eauto.
  - intros e w1 Hc Hb. rewrite rewrite_text_with_run, Hc, Hb. reflexivity.
Qed.

Lemma C10_witness :
  let backend : pystr -> pystr -> Eff pystr :=
    fun _ _ => raise (Exception (py "service unavailable")) in
  let w := sample_world true None (inr []) in
  credentials_valid sample_config = true
  /\ backend (py "Hello") (py "Neutral") w
     = (inl (Exception (py "service unavailable")), w)
  /\ rewrite_text_with backend {| config := sample_config |} (py "Hello")
       (py "Neutral") w
     = (inr (py "Hello"),
        emits [st_error (py "Error rewriting text: " ++ py "service unavailable")] w).
Proof.
  intros backend w.
  split; [reflexivity | split; [reflexivity|]].
  destruct (C10_rewrite_text_never_raises backend {| config := sample_config |}
              (py "Hello") (py "Neutral") w) as (_ & _ & H).
  exact (H (Exception (py "service unavailable")) w eq_refl eq_refl).
Defined.

(** ** The narrator and the processing step *)

Section Narrator.

Lemma voices_lookup_other voice :
  ~ In voice voice_names -> voices AudioGenerator_init !! voice = None.
Proof.
  unfold voice_names. simpl. intros H.
  unfold AudioGenerator_init. simpl.
  rewrite !lookup_insert_ne by (intros E; apply H; rewrite E; tauto).
  apply lookup_empty.
Qed.

(** Every entry of the voice table, and the default, is an English
    locale. *)
Lemma language_code_en voice :
  language_code AudioGenerator_init voice = py "en".
Proof.
  unfold language_code, AudioGenerator_init. simpl.
  destruct (decide (voice = py "Allison")) as [->|H1]; [reflexivity|].
  rewrite lookup_insert_ne by congruence.
  destruct (decide (voice = py "Michael")) as [->|H2]; [reflexivity|].
  rewrite lookup_insert_ne by congruence.
  destruct (decide (voice = py "Lisa")) as [->|H3]; [reflexivity|].
  rewrite lookup_insert_ne by congruence.
  rewrite lookup_empty. reflexivity.
Qed.

Lemma generate_audio_same_code self text v1 v2 w :
  language_code self v1 = language_code self v2 ->
  generate_audio self text v1 w = generate_audio self text v2 w.
Proof. intros H. rewrite !generate_audio_run, H. reflexivity. Qed.

(** [generate_audio] catches whatever gTTS raises. *)
Lemma generate_audio_returns self text voice w :
  exists r w', generate_audio self text voice w = (inr r, w').
Proof.
  rewrite generate_audio_run. simpl.
  destruct (gtts_init w text _ false); [eauto|].
  destruct (gtts_audio w text _ false); eauto.
Qed.

(** No exception leaves [render_processing_section]. *)
Lemma render_processing_section_returns self text tone voice w :
  exists r w', render_processing_section self text tone voice w = (inr r, w').
Proof.
  destruct (nonempty (strip text)) eqn:Hs.
  - destruct (pressed w generate_label) eqn:Hp.
    + rewrite render_processing_section_go by assumption. simpl.
      destruct (generate_audio_returns (audio_generator self)
                  (rewrite_result (config (rewriter self)) text tone) voice
                  (before_audio self w)) as (r & w' & ->).
      eauto.
    + rewrite render_processing_section_idle by assumption. eauto.
  - rewrite render_processing_section_blank by assumption. eauto.
Qed.

Lemma new_events_app w w' l :
  trace w' = trace w ++ l -> new_events w w' = l.
Proof. intros H. unfold new_events. rewrite H. apply drop_app_length. Qed.

Lemma credential_diagnostics_requests cfg :
  omap (fun ev => match ev with
                  | gTTS_call text lang slow => Some (text, lang, slow)
                  | _ => None
                  end) (credential_diagnostics cfg) = [].
Proof.
  unfold credential_diagnostics. destruct (credentials_valid cfg); reflexivity.
Qed.

(** The requests [generate_audio] makes: one, for the text it was
    given. *)
Lemma generate_audio_requests self text voice w0 w :
  trace w = trace w0 ++ new_events w0 w ->
  gTTS_requests w0 (generate_audio self text voice w).2
  = gTTS_requests w0 w ++ [(text, language_code self voice, false)].
Proof.
  intros Hw. rewrite generate_audio_run. simpl.
  unfold gTTS_requests.
  destruct (gtts_init w text _ false) as [e|].
  - simpl. erewrite (new_events_app w0 (emits _ w)); [|simpl; rewrite Hw, <- app_assoc; reflexivity].
    rewrite omap_app. reflexivity.
  - destruct (gtts_audio w text _ false) as [e|data]; simpl;
      (erewrite (new_events_app w0 (after_tempfile _ _ w));
       [|simpl; rewrite Hw, <- app_assoc; reflexivity]);
      rewrite omap_app; reflexivity.
Qed.

(** The requests of one run of the processing step. *)
Lemma render_processing_section_requests self text tone voice w :
  gTTS_requests w (render_processing_section self text tone voice w).2
  = if nonempty (strip text) && pressed w generate_label
    then [(rewrite_result (config (rewriter self)) text tone,
           language_code (audio_generator self) voice, false)]
    else [].
Proof.
  destruct (nonempty (strip text)) eqn:Hs; simpl.
  - destruct (pressed w generate_label) eqn:Hp.
    + rewrite render_processing_section_go by assumption. simpl.
      pose proof (generate_audio_requests (audio_generator self)
                    (rewrite_result (config (rewriter self)) text tone) voice
                    w (before_audio self w)) as Hr.
      destruct (generate_audio _ _ _ _) as [[e|a] w']; simpl in *;
        (rewrite Hr; [|unfold before_audio; rewrite new_events_emits; reflexivity]);
        unfold gTTS_requests, before_audio; rewrite new_events_emits, omap_app,
          credential_diagnostics_requests; reflexivity.
    + rewrite render_processing_section_idle by assumption.
      unfold gTTS_requests. simpl. rewrite new_events_emits. reflexivity.
  - rewrite render_processing_section_blank by assumption.
    unfold gTTS_requests. simpl. rewrite new_events_emits. reflexivity.
Qed.

Lemma gTTS_requests_In w w' text lang slow :
  In (gTTS_call text lang slow) (new_events w w')
  <-> In (text, lang, slow) (gTTS_requests w w').
Proof.
  unfold gTTS_requests. rewrite <- !list_elem_of_In, list_elem_of_omap.
  split.
  - intros H. exists (gTTS_call text lang slow). split; [exact H | reflexivity].
  - intros (ev & Hin & Hev). destruct ev; try discriminate Hev.
    injection Hev as -> -> ->. exact Hin.
Qed.

End Narrator.

Section AudioSection.

Lemma create_audio_player_run self path data w :
  path <> [] -> files w !! path = Some data ->
  create_audio_player self (Some path) w
  = (inr tt, emits [st_audio data (py "audio/mp3")] w).
Proof.
  intros Hp Hf. unfold create_audio_player.
  destruct path as [|c path]; [congruence|]. simpl.
  unfold mbind, Eff_bind, path_exists, read_file. rewrite Hf.
  rewrite bool_decide_eq_true_2 by eauto. simpl. rewrite Hf. reflexivity.
Qed.

Lemma create_download_button_run self path filename data w :
  path <> [] -> files w !! path = Some data ->
  create_download_button self (Some path) filename w
  = (inr (pressed w (128229%N :: py " Download Audio")),
     emits [st_download_button (128229%N :: py " Download Audio") data
              filename (py "audio/mp3")] w).
Proof.
  intros Hp Hf. unfold create_download_button.
  destruct path as [|c path]; [congruence|]. simpl.
  unfold mbind, Eff_bind, path_exists, read_file. rewrite Hf.
  rewrite bool_decide_eq_true_2 by eauto. simpl. rewrite Hf. reflexivity.
Qed.

Lemma create_audio_player_missing self path w :
  files w !! path = None -> create_audio_player self (Some path) w = (inr tt, w).
Proof.
  intros Hf. unfold create_audio_player. destruct (nonempty path); [|reflexivity].
  unfold mbind, Eff_bind, path_exists. rewrite Hf.
  rewrite bool_decide_eq_false_2 by (intros [? ?]; discriminate). reflexivity.
Qed.

Lemma create_download_button_missing self path filename w :
  files w !! path = None ->
  create_download_button self (Some path) filename w = (inr false, w).
Proof.
  intros Hf. unfold create_download_button. destruct (nonempty path); [|reflexivity].
  unfold mbind, Eff_bind, path_exists. rewrite Hf.
  rewrite bool_decide_eq_false_2 by (intros [? ?]; discriminate). reflexivity.
Qed.

(** The audio section for a file that exists: the player and the
    download button carry the file's bytes as audio/mp3, and the
    statistics close the section. *)
Lemma render_audio_section_run self path text data w :
  path <> [] -> files w !! path = Some data ->
  render_audio_section self (Some path) text w
  = (inr tt, emits (audio_section_events data (clock w) text) w).
Proof.
  intros Hp Hf. unfold render_audio_section.
  replace (truthy (Some path)) with true
    by (destruct path; [congruence | reflexivity]).
  unfold mbind at 1, Eff_bind at 1, emit at 1.
  unfold mbind at 1, Eff_bind at 1, emit at 1.
  unfold mbind at 1, Eff_bind at 1, emit at 1.
  unfold mbind at 1, Eff_bind at 1.
  rewrite (create_audio_player_run _ path data) by assumption.
  unfold mbind at 1, Eff_bind at 1, emit at 1.
  unfold mbind at 1, Eff_bind at 1, time_now.
  unfold mbind at 1, Eff_bind at 1.
  rewrite (create_download_button_run _ path _ data) by assumption.
  unfold emit, emits, with_trace, audio_section_events, statistics_line. simpl.
  rewrite <- !app_assoc. reflexivity.
Qed.

(** Whenever the section is shown it ends with the statistics. *)
Lemma render_audio_section_statistics self audio_file text w :
  truthy audio_file = true ->
  exists earlier,
    render_audio_section self audio_file text w
    = (inr tt,
       emits (earlier ++ [st_info (statistics_line (length text)
                                     (length (split text))
                                     (length text / 200))]) w).
Proof.
  intros Ht. destruct audio_file as [path|]; [|discriminate].
  assert (Hp : path <> []) by (destruct path; [discriminate | congruence]).
  destruct (files w !! path) as [data|] eqn:Hf.
  - rewrite (render_audio_section_run self path text data) by assumption.
    eexists. unfold audio_section_events.
    change [?a; ?b; ?c; ?d; ?e; ?f; ?g] with ([a; b; c; d; e; f] ++ [g]).
    reflexivity.
  - exists [st_subheader (127925%N :: py " Generated Audiobook");
            st_columns [3; 1];
            st_markdown (py "**Listen to your audiobook:**");
            st_markdown (py "**Download:**")].
    unfold render_audio_section. rewrite Ht.
    unfold mbind at 1, Eff_bind at 1, emit at 1.
    unfold mbind at 1, Eff_bind at 1, emit at 1.
    unfold mbind at 1, Eff_bind at 1, emit at 1.
    unfold mbind at 1, Eff_bind at 1.
    rewrite create_audio_player_missing by exact Hf.
    unfold mbind at 1, Eff_bind at 1, emit at 1.
    unfold mbind at 1, Eff_bind at 1, time_now.
    unfold mbind at 1, Eff_bind at 1.
    rewrite create_download_button_missing by exact Hf.
    unfold emit, emits, with_trace, statistics_line. simpl.
    rewrite <- !app_assoc. reflexivity.
Qed.

End AudioSection.

(** ** Claims about the processing step and the narrator *)

(** C2: when the text is not empty and the synthesis call of the run
    raises, [render_processing_section] raises nothing and returns the
    text that [rewrite_text] produced, which is not empty, paired with
    [None] for the audio. *)
Theorem C2_audio_failure_keeps_rewritten_text :
  forall (self : EchoVerseApp) (text tone voice : pystr) (w : World),
    text <> [] ->
    synthesis_raised w (render_processing_section self text tone voice w).2 ->
    exists rewritten,
      (render_processing_section self text tone voice w).1
      = inr (Some rewritten, None)
      /\ (rewrite_text (rewriter self) text tone w).1 = inr rewritten
      /\ rewritten <> [].
Proof.
  intros self text tone voice w Hne (t & lang & slow & Hin & Hraise).
  exists (rewrite_result (config (rewriter self)) text tone).
  rewrite rewrite_text_run. simpl.
  split; [|split; [reflexivity | apply rewrite_result_nonempty, Hne]].
  apply gTTS_requests_In in Hin.
  rewrite render_processing_section_requests in Hin.
  destruct (nonempty (strip text)) eqn:Hs; [|destruct Hin].
  destruct (pressed w generate_label) eqn:Hp; [|destruct Hin].
  simpl in Hin. destruct Hin as [[= <- <- <-]|[]].
  rewrite render_processing_section_go by assumption. simpl.
  pose proof (proj2 (generate_audio_none (audio_generator self)
                       (rewrite_result (config (rewriter self)) text tone)
                       voice (before_audio self w)) Hraise) as Hnone.
  destruct (generate_audio _ _ _ _) as [[e|a] w']; simpl in Hnone.
  - discriminate Hnone.
  - injection Hnone as ->. reflexivity.
Qed.

Lemma C2_witness :
  let w := sample_world true (Some (Exception (py "Language not supported")))
             (inr []) in
  py "Hello world" <> []
  /\ synthesis_raised w
       (render_processing_section EchoVerseApp_init (py "Hello world")
          (py "Neutral") (py "Lisa") w).2
  /\ exists rewritten,
       (render_processing_section EchoVerseApp_init (py "Hello world")
          (py "Neutral") (py "Lisa") w).1 = inr (Some rewritten, None).
Proof.
  intros w.
  assert (H1 : py "Hello world" <> []) by (vm_compute; discriminate).
  assert (H2 : synthesis_raised w
                 (render_processing_section EchoVerseApp_init (py "Hello world")
                    (py "Neutral") (py "Lisa") w).2).
  { exists (py "Hello world"), (py "en"), false. split.
    - vm_compute. do 4 right. left. reflexivity.
    - left. eexists. reflexivity. }
  split; [exact H1 | split; [exact H2|]].
  destruct (C2_audio_failure_keeps_rewritten_text EchoVerseApp_init
              (py "Hello world") (py "Neutral") (py "Lisa") w H1 H2)
    as (rewritten & Hr & _).
  exists rewritten. exact Hr.
Defined.

(** C3: for a text that is empty or holds only whitespace,
    [render_processing_section] returns [(None, None)] whatever the
    tone and the voice; all it does is show the informational message:
    no button, no credential check, no request to gTTS. *)
Theorem C3_blank_input_short_circuits :
  forall (self : EchoVerseApp) (text tone voice : pystr) (w : World),
    forallb isspace text = true ->
    render_processing_section self text tone voice w
    = (inr (None, None),
       emits [st_info (py "Please enter some text to continue.")] w)
    /\ new_events w (render_processing_section self text tone voice w).2
       = [st_info (py "Please enter some text to continue.")]
    /\ gTTS_requests w (render_processing_section self text tone voice w).2 = [].
Proof.
  intros self text tone voice w H.
  assert (Hs : nonempty (strip text) = false)
    by (rewrite nonempty_strip, H; reflexivity).
  rewrite render_processing_section_requests, Hs.
  rewrite render_processing_section_blank by exact Hs. simpl.
  rewrite new_events_emits. repeat split.
Qed.

Lemma C3_witness :
  forallb isspace (py "  " ++ [9; 10; 160; 8195]%N) = true
  /\ (render_processing_section EchoVerseApp_init (py "  " ++ [9; 10; 160; 8195]%N)
        (py "Suspenseful") (py "Michael") (sample_world true None (inr []))).1
     = inr (None, None).
Proof.
  split; [reflexivity|].
  destruct (C3_blank_input_short_circuits EchoVerseApp_init
              (py "  " ++ [9; 10; 160; 8195]%N) (py "Suspenseful") (py "Michael")
              (sample_world true None (inr [])) eq_refl) as (H & _).
  rewrite H. reflexivity.
Defined.

(** C4, as the code has it: the text of every request that a run of
    [render_processing_section] makes to gTTS is the text
    [rewrite_text] returned.  With all credentials set and one of the
    three tones this is the template around the input, longer than the
    input; with a credential missing it is the input itself. *)
Theorem C4_narrates_rewrite_text_output :
  forall (self : EchoVerseApp) (text tone voice : pystr) (w : World)
         (t lang : pystr) (slow : bool),
    In (t, lang, slow)
       (gTTS_requests w (render_processing_section self text tone voice w).2) ->
    (forall w0, (rewrite_text (rewriter self) text tone w0).1 = inr t)
    /\ (credentials_valid (config (rewriter self)) = true ->
        t = _simulate_rewrite text tone
        /\ (In tone tones -> length text < length t))
    /\ (credentials_valid (config (rewriter self)) = false -> t = text).
Proof.
  intros self text tone voice w t lang slow Hin.
  rewrite render_processing_section_requests in Hin.
  destruct (nonempty (strip text) && pressed w generate_label); [|destruct Hin].
  simpl in Hin. destruct Hin as [[= <- <- <-]|[]].
  split; [|split].
  - intros w0. rewrite rewrite_text_run. reflexivity.
  - intros Hc. unfold rewrite_result. rewrite Hc. split; [reflexivity|].
    intros Ht. pose proof (simulate_rewrite_longer text tone Ht). lia.
  - intros Hc. unfold rewrite_result. rewrite Hc. reflexivity.
Qed.

Lemma C4_witness :
  let self := EchoVerseApp_of sample_config in
  let w := sample_world true None (inr [1; 2; 3]%N) in
  let t := neutral_prefix ++ py "Hello world" in
  In (t, py "en", false)
     (gTTS_requests w
        (render_processing_section self (py "Hello world") (py "Neutral")
           (py "Lisa") w).2)
  /\ (rewrite_text (rewriter self) (py "Hello world") (py "Neutral") w).1 = inr t.
Proof.
  intros self w t.
  assert (H : In (t, py "en", false)
                (gTTS_requests w
                   (render_processing_section self (py "Hello world")
                      (py "Neutral") (py "Lisa") w).2))
    by (vm_compute; left; reflexivity).
  split; [exact H|].
  destruct (C4_narrates_rewrite_text_output self (py "Hello world")
              (py "Neutral") (py "Lisa") w t (py "en") false H) as (Hr & _).
  apply Hr.
Defined.

(** C4 as stated fails: with the credentials of a fresh application the
    one request of the run carries the original text. *)
Lemma C4_counterexample :
  let w := sample_world true None (inr [1; 2; 3]%N) in
  py "Hello world" <> []
  /\ gTTS_requests w
       (render_processing_section EchoVerseApp_init (py "Hello world")
          (py "Neutral") (py "Lisa") w).2
     = [(py "Hello world", py "en", false)].
Proof.
  split; [vm_compute; discriminate | vm_compute; reflexivity].
Qed.

(** C7, as the code has it: when all three credentials are set, the
    Generate button is pressed and gTTS succeeds,
    process("Hello world", "Neutral", "Lisa") returns the Neutral
    prefix followed by "Hello world" and the name of a temporary .mp3
    file that holds the synthesised bytes; the audio section then
    offers those bytes for playing and for download as audio/mp3. *)
Theorem C7_hello_world_neutral_lisa :
  forall (cfg : EchoVerseConfig) (w : World) (data : list N),
    credentials_valid cfg = true ->
    pressed w generate_label = true ->
    gtts_init w (neutral_prefix ++ py "Hello world") (py "en") false = None ->
    gtts_audio w (neutral_prefix ++ py "Hello world") (py "en") false = inr data ->
    let self := EchoVerseApp_of cfg in
    let rewritten := neutral_prefix ++ py "Hello world" in
    let name := tmp_stem w (tmp_next w) ++ py ".mp3" in
    let run := render_processing_section self (py "Hello world") (py "Neutral")
                 (py "Lisa") w in
    run.1 = inr (Some rewritten, Some name)
    /\ startswith neutral_prefix rewritten = true
    /\ contains (py "Hello world") rewritten = true
    /\ files run.2 !! name = Some data
    /\ render_audio_section self (Some name) rewritten run.2
       = (inr tt, emits (audio_section_events data (clock w) rewritten) run.2)
    /\ In (st_audio data (py "audio/mp3"))
          (audio_section_events data (clock w) rewritten).
Proof.
  intros cfg w data Hc Hp Hi Ha self rewritten name run.
  assert (Hname : name <> []).
  { unfold name. intros E. apply app_eq_nil in E as [_ E].
    vm_compute in E. discriminate E. }
  assert (Hrun : run = (inr (Some rewritten, Some name),
                        after_tempfile data
                          [gTTS_call rewritten (py "en") false;
                           tempfile_call name; save_call name]
                          (before_audio self w))).
  { unfold run. rewrite render_processing_section_go by (reflexivity || exact Hp).
    cbv zeta. unfold rewrite_result.
    change (config (rewriter self)) with cfg.
    rewrite Hc, simulate_rewrite_neutral.
    rewrite generate_audio_run, language_code_en. cbv zeta.
    change (gtts_init (before_audio self w)) with (gtts_init w).
    change (gtts_audio (before_audio self w)) with (gtts_audio w).
    rewrite Hi, Ha. reflexivity. }
  assert (Hfile : files run.2 !! name = Some data).
  { rewrite Hrun. simpl. apply lookup_insert_eq. }
  split; [rewrite Hrun; reflexivity|].
  split; [apply startswith_app|].
  split; [apply (contains_app (py "Hello world") neutral_prefix [])|].
  split; [exact Hfile|].
  split.
  - rewrite (render_audio_section_run self name rewritten data) by assumption.
    rewrite Hrun. reflexivity.
  - unfold audio_section_events. simpl. tauto.
Qed.

Lemma C7_witness :
  let w := sample_world true None (inr [73; 68; 51]%N) in
  credentials_valid sample_config = true
  /\ pressed w generate_label = true
  /\ (render_processing_section (EchoVerseApp_of sample_config)
        (py "Hello world") (py "Neutral") (py "Lisa") w).1
     = inr (Some (neutral_prefix ++ py "Hello world"), Some (py "/tmp/tmp0.mp3")).
Proof.
  intros w.
  split; [reflexivity | split; [reflexivity|]].
  destruct (C7_hello_world_neutral_lisa sample_config w [73; 68; 51]%N
              eq_refl eq_refl eq_refl eq_refl) as (H & _).
  exact H.
Defined.

(** C7 as stated fails: with the credentials of a fresh application
    and gTTS succeeding, the returned text is "Hello world" itself and
    does not begin with the Neutral prefix. *)
Lemma C7_counterexample :
  let w := sample_world true None (inr [73; 68; 51]%N) in
  (render_processing_section EchoVerseApp_init (py "Hello world")
     (py "Neutral") (py "Lisa") w).1
  = inr (Some (py "Hello world"), Some (py "/tmp/tmp0.mp3"))
  /\ startswith neutral_prefix (py "Hello world") = false.
Proof.
  split; vm_compute; reflexivity.
Qed.

(** C8: whenever an audio file was produced, the audio section ends
    with the statistics of the rewritten text S: its length in
    characters, the number of its whitespace-separated words, and the
    length divided by 200, rounded down, as minutes.  For 1000
    characters in 150 words the line reads 1000, 150 and 5. *)
Theorem C8_audio_statistics :
  forall (self : EchoVerseApp) (audio_file : option pystr) (S : pystr) (w : World),
    truthy audio_file = true ->
    (exists earlier,
       render_audio_section self audio_file S w
       = (inr tt,
          emits (earlier ++ [st_info (statistics_line (length S)
                                        (length (split S))
                                        (length S / 200))]) w))
    /\ 200 * (length S / 200) <= length S < 200 * (length S / 200) + 200
    /\ (length S = 1000 -> length (split S) = 150 ->
        statistics_line (length S) (length (split S)) (length S / 200)
        = 128202%N :: py " **Audio Statistics**: 1000 characters, ~150 words, ~5 minutes estimated duration").
Proof.
  intros self audio_file S w Ht. split; [|split].
  - apply render_audio_section_statistics, Ht.
  - pose proof (Nat.div_mod_eq (length S) 200) as Hd.
    pose proof (Nat.mod_upper_bound (length S) 200) as Hm. lia.
  - intros Hl Hw. rewrite Hl, Hw. reflexivity.
Qed.

Lemma C8_witness :
  truthy (Some (py "/tmp/tmp0.mp3")) = true
  /\ length sample_text_1000 = 1000
  /\ length (split sample_text_1000) = 150
  /\ statistics_line (length sample_text_1000) (length (split sample_text_1000))
       (length sample_text_1000 / 200)
     = 128202%N :: py " **Audio Statistics**: 1000 characters, ~150 words, ~5 minutes estimated duration".
Proof.
  assert (H1 : length sample_text_1000 = 1000) by (vm_compute; reflexivity).
  assert (H2 : length (split sample_text_1000) = 150) by (vm_compute; reflexivity).
  split; [reflexivity | split; [exact H1 | split; [exact H2|]]].
  destruct (C8_audio_statistics EchoVerseApp_init (Some (py "/tmp/tmp0.mp3"))
              sample_text_1000 (sample_world true None (inr [])) eq_refl)
    as (_ & _ & H).
  exact (H H1 H2).
Defined.

(** C9: for a voice outside Lisa, Michael and Allison the lookup in the
    voice table finds nothing and takes the default "en-us"; gTTS is
    asked for "en" and [generate_audio] and the whole processing step
    behave as for "Lisa", so they succeed whenever gTTS does. *)
Theorem C9_unknown_voice_uses_default :
  forall (cfg : EchoVerseConfig) (text tone voice : pystr) (w : World),
    ~ In voice voice_names ->
    voices AudioGenerator_init !! voice = None
    /\ default (py "en-us") (voices AudioGenerator_init !! voice) = py "en-us"
    /\ language_code AudioGenerator_init voice = py "en"
    /\ generate_audio AudioGenerator_init text voice w
       = generate_audio AudioGenerator_init text (py "Lisa") w
    /\ (~ engine_raises w text (py "en") false ->
        (generate_audio AudioGenerator_init text voice w).1
        = inr (Some (tmp_stem w (tmp_next w) ++ py ".mp3")))
    /\ render_processing_section (EchoVerseApp_of cfg) text tone voice w
       = render_processing_section (EchoVerseApp_of cfg) text tone (py "Lisa") w.
Proof.
  intros cfg text tone voice w Hv.
  pose proof (voices_lookup_other voice Hv) as Hl.
  assert (Hg : forall t w0,
             generate_audio AudioGenerator_init t voice w0
             = generate_audio AudioGenerator_init t (py "Lisa") w0).
  { intros t w0. apply generate_audio_same_code.
    rewrite !language_code_en. reflexivity. }
  split; [exact Hl|]. split; [rewrite Hl; reflexivity|].
  split; [apply language_code_en|]. split; [apply Hg|]. split.
  - intros Hok. rewrite generate_audio_run, language_code_en. simpl.
    unfold engine_raises in Hok.
    destruct (gtts_init w text (py "en") false) as [e|];
      [exfalso; apply Hok; eauto|].
    destruct (gtts_audio w text (py "en") false) as [e|data];
      [exfalso; apply Hok; eauto|].
    reflexivity.
  - destruct (nonempty (strip text)) eqn:Hs.
    + destruct (pressed w generate_label) eqn:Hp.
      * rewrite !render_processing_section_go by assumption. simpl.
        rewrite Hg. reflexivity.
      * rewrite !render_processing_section_idle by assumption. reflexivity.
    + rewrite !render_processing_section_blank by assumption. reflexivity.
Qed.

Lemma C9_witness :
  let w := sample_world true None (inr [73; 68; 51]%N) in
  ~ In (py "Unknown") voice_names
  /\ ~ engine_raises w (py "Hello world") (py "en") false
  /\ (generate_audio AudioGenerator_init (py "Hello world") (py "Unknown") w).1
     = inr (Some (py "/tmp/tmp0.mp3"))
  /\ (render_processing_section (EchoVerseApp_of sample_config)
        (py "Hello world") (py "Inspiring") (py "Unknown") w).1
     = inr (Some (_simulate_rewrite (py "Hello world") (py "Inspiring")),
            Some (py "/tmp/tmp0.mp3")).
Proof.
  intros w.
  assert (H1 : ~ In (py "Unknown") voice_names).
  { unfold voice_names. simpl.
    intros [E|[E|[E|[]]]]; vm_compute in E; discriminate E. }
  assert (H2 : ~ engine_raises w (py "Hello world") (py "en") false).
  { intros [[e He]|[e He]]; discriminate He. }
  split; [exact H1 | split; [exact H2|]].
  destruct (C9_unknown_voice_uses_default sample_config (py "Hello world")
              (py "Inspiring") (py "Unknown") w H1) as (_ & _ & _ & _ & Ha & Hp).
  split; [exact (Ha H2)|].
  rewrite Hp. vm_compute. reflexivity.
Defined.

(** * Further properties of the code *)

(** ** Credentials and rewriting *)

(** X1: [validate_credentials] answers [True] exactly when the three
    credentials are all non-empty and then shows nothing; otherwise it
    answers [False] and shows one error naming the empty ones, then one
    hint.  A credential is named exactly when it is empty. *)
Theorem validate_credentials_names_the_empty_ones :
  forall (cfg : EchoVerseConfig) (w : World),
    ((validate_credentials cfg w).1 = inr true
     <-> WATSON_API_KEY cfg <> [] /\ WATSON_URL cfg <> []
         /\ WATSONX_PROJECT_ID cfg <> [])
    /\ ((validate_credentials cfg w).1 = inr true
        -> (validate_credentials cfg w).2 = w)
    /\ ((validate_credentials cfg w).1 <> inr true
        -> (validate_credentials cfg w).1 = inr false
           /\ new_events w (validate_credentials cfg w).2
              = [st_error (py "Missing credentials: "
                             ++ join (py ", ") (missing_credentials cfg));
                 st_info (py "Please set your IBM Watson credentials in the configuration section")])
    /\ (In (py "WATSON_API_KEY") (missing_credentials cfg)
        <-> WATSON_API_KEY cfg = [])
    /\ (In (py "WATSON_URL") (missing_credentials cfg)
        <-> WATSON_URL cfg = [])
    /\ (In (py "WATSONX_PROJECT_ID") (missing_credentials cfg)
        <-> WATSONX_PROJECT_ID cfg = []).
Proof.
  intros cfg w. rewrite validate_credentials_run.
  cbn [fst snd]. unfold credential_diagnostics.
  split; [|split; [|split]].
  - destruct cfg as [[|? ?] [|? ?] [|? ?]]; cbn; split;
      first [ discriminate | intros (? & ? & ?); congruence
            | intros _; repeat split; discriminate | reflexivity ].
  - intros [= ->]. apply emits_nil.
  - destruct (credentials_valid cfg); [congruence|].
    intros _. rewrite new_events_emits. split; reflexivity.
  - destruct cfg as [[|? ?] [|? ?] [|? ?]];
      unfold missing_credentials; cbn [nonempty negb WATSON_API_KEY WATSON_URL
        WATSONX_PROJECT_ID app In];
      repeat split; intros H; try reflexivity; try discriminate H;
      try tauto;
      repeat (destruct H as [H|H]; [vm_compute in H; discriminate H|]);
      destruct H.
Qed.

(** X2: Rewriting lengthens a text by at most 88 characters, so it raises
    the estimated duration by at most one minute; for the three tones
    the added length is 36, 76 and 88 when the credentials are set. *)
Theorem rewrite_text_adds_at_most_88 :
  forall (self : TextRewriter) (text tone : pystr) (w : World),
    exists out,
      (rewrite_text self text tone w).1 = inr out
      /\ length text <= length out <= length text + 88
      /\ length out / 200 <= length text / 200 + 1
      /\ length (_simulate_rewrite text (py "Neutral")) = length text + 36
      /\ length (_simulate_rewrite text (py "Suspenseful")) = length text + 76
      /\ length (_simulate_rewrite text (py "Inspiring")) = length text + 88.
Proof.
  intros self text tone w.
  assert (Hn : length (_simulate_rewrite text (py "Neutral")) = length text + 36).
  { rewrite simulate_rewrite_neutral, length_app.
    change (length neutral_prefix) with 36. lia. }
  assert (Hs : length (_simulate_rewrite text (py "Suspenseful")) = length text + 76).
  { rewrite simulate_rewrite_suspenseful, !length_app.
    change (length (py "With building tension and intrigue: ")) with 36.
    change (length (py "... What happens next will surprise you.")) with 40. lia. }
  assert (Hi : length (_simulate_rewrite text (py "Inspiring")) = length text + 88).
  { rewrite simulate_rewrite_inspiring, !length_app.
    change (length (py "With great determination and hope: ")) with 35.
    change (length (py " This is just the beginning of an incredible journey."))
      with 53. lia. }
  assert (Hany : length text <= length (_simulate_rewrite text tone)
                 <= length text + 88).
  { split; [apply simulate_rewrite_length|].
    rewrite simulate_rewrite_neutral in Hn.
    rewrite simulate_rewrite_suspenseful in Hs.
    rewrite simulate_rewrite_inspiring in Hi.
    unfold _simulate_rewrite. repeat case_bool_decide; lia. }
  exists (rewrite_result (config self) text tone).
  rewrite rewrite_text_run. cbn [fst].
  assert (Hout : length text <= length (rewrite_result (config self) text tone)
                 <= length text + 88).
  { unfold rewrite_result. destruct (credentials_valid (config self)); [exact Hany | lia]. }
  repeat split; try lia; try assumption.
  transitivity ((length text + 200) / 200).
  - apply Nat.Div0.div_le_mono. lia.
  - replace (length text + 200) with (length text + 1 * 200) by lia.
    rewrite Nat.div_add by lia. lia.
Qed.

(** X3: The rewritten text holds the original verbatim, and two different
    texts never get the same rewrite. *)
Theorem simulate_rewrite_keeps_the_text :
  forall (text text' tone : pystr),
    contains text (_simulate_rewrite text tone) = true
    /\ (_simulate_rewrite text tone = _simulate_rewrite text' tone
        -> text = text').
Proof.
  intros text text' tone. unfold _simulate_rewrite.
  repeat case_bool_decide.
  - split.
    + replace (neutral_prefix ++ text) with (neutral_prefix ++ text ++ [])
        by (rewrite app_nil_r; reflexivity).
      apply contains_app.
    + intros E. apply app_inv_head in E. exact E.
  - split; [apply contains_app|].
    intros E. apply app_inv_head, app_inv_tail in E. exact E.
  - split; [apply contains_app|].
    intros E. apply app_inv_head, app_inv_tail in E. exact E.
  - split; [|tauto].
    replace text with ([] ++ text ++ []) at 2
      by (rewrite app_nil_r; reflexivity).
    apply contains_app.
Qed.

Lemma simulate_rewrite_keeps_the_text_witness :
  _simulate_rewrite (py "Hello") (py "Suspenseful")
  = _simulate_rewrite (py "Hello") (py "Suspenseful")
  /\ py "Hello" = py "Hello"
  /\ contains (py "Hello") (_simulate_rewrite (py "Hello") (py "Suspenseful")) = true.
Proof.
  destruct (simulate_rewrite_keeps_the_text (py "Hello") (py "Hello")
              (py "Suspenseful")) as [Hc Hi].
  split; [reflexivity | split; [exact (Hi eq_refl) | exact Hc]].
Defined.

(** X4: [rewrite_text] touches nothing but the page: no file, no temporary
    name, no request to gTTS.  It shows nothing when the credentials
    are set and the two credential diagnostics otherwise; its [except]
    branch never runs, so "Error rewriting text" is never shown. *)
Theorem rewrite_text_touches_only_the_page :
  forall (self : TextRewriter) (text tone : pystr) (w : World),
    let w' := (rewrite_text self text tone w).2 in
    files w' = files w
    /\ tmp_next w' = tmp_next w
    /\ gTTS_requests w w' = []
    /\ (validate_credentials (config self) w = (inr true, w)
          /\ new_events w w' = []
        \/ (validate_credentials (config self) w).1 = inr false
           /\ new_events w w'
              = [st_error (py "Missing credentials: "
                             ++ join (py ", ") (missing_credentials (config self)));
                 st_info (py "Please set your IBM Watson credentials in the configuration section")]).
Proof.
  intros self text tone w w'. subst w'.
  rewrite rewrite_text_run, validate_credentials_run. cbn [fst snd].
  unfold gTTS_requests. rewrite new_events_emits, credential_diagnostics_requests.
  repeat split.
  unfold credential_diagnostics.
  destruct (credentials_valid (config self)).
  - left. rewrite emits_nil. split; reflexivity.
  - right. split; reflexivity.
Qed.

(** ** Audio generation *)

(** X5: When gTTS rejects the request as the object is built,
    [generate_audio] shows the error and returns [None] before any
    temporary file is made: the files are as they were. *)
Theorem generate_audio_rejected_request_makes_no_file :
  forall (self : AudioGenerator) (text voice : pystr) (w : World) (e : Exn),
    gtts_init w text (language_code self voice) false = Some e ->
    let r := generate_audio self text voice w in
    r.1 = inr None
    /\ files r.2 = files w
    /\ tmp_next r.2 = tmp_next w
    /\ new_events w r.2
       = [gTTS_call text (language_code self voice) false;
          st_error (py "Error generating audio: " ++ str_exn e)].
Proof.
  intros self text voice w e He r. subst r.
  rewrite generate_audio_run. cbv zeta. rewrite He. cbn [fst snd].
  rewrite new_events_emits. repeat split.
Qed.

Lemma generate_audio_rejected_request_makes_no_file_witness :
  let w := sample_world true (Some (Exception (py "Language not supported")))
             (inr []) in
  gtts_init w (py "Hello") (language_code AudioGenerator_init (py "Lisa")) false
  = Some (Exception (py "Language not supported"))
  /\ (generate_audio AudioGenerator_init (py "Hello") (py "Lisa") w).1 = inr None
  /\ files (generate_audio AudioGenerator_init (py "Hello") (py "Lisa") w).2 = ∅.
Proof.
  intros w. split; [reflexivity|].
  destruct (generate_audio_rejected_request_makes_no_file AudioGenerator_init
              (py "Hello") (py "Lisa") w
              (Exception (py "Language not supported")) eq_refl)
    as (H1 & H2 & _).
  split; [exact H1 | exact H2].
Defined.

(** X6: When saving the audio raises, [generate_audio] returns [None], yet
    the temporary file made just before stays behind: a file that no
    returned value names. *)
Theorem generate_audio_failed_save_leaves_the_file :
  forall (self : AudioGenerator) (text voice : pystr) (w : World) (e : Exn),
    gtts_init w text (language_code self voice) false = None ->
    gtts_audio w text (language_code self voice) false = inl e ->
    let r := generate_audio self text voice w in
    let name := tmp_stem w (tmp_next w) ++ py ".mp3" in
    r.1 = inr None
    /\ is_Some (files r.2 !! name)
    /\ tmp_next r.2 = S (tmp_next w)
    /\ new_events w r.2
       = [gTTS_call text (language_code self voice) false;
          tempfile_call name; save_call name;
          st_error (py "Error generating audio: " ++ str_exn e)].
Proof.
  intros self text voice w e Hi Ha r name. subst r.
  rewrite generate_audio_run. cbv zeta. rewrite Hi, Ha. cbn [fst snd].
  split; [reflexivity|]. split.
  - unfold after_tempfile. cbn [files with_tmp_next with_files].
    rewrite lookup_insert_eq. eauto.
  - split; [reflexivity|].
    apply new_events_app. unfold after_tempfile, emits.
    cbn [trace with_tmp_next with_files with_trace]. reflexivity.
Qed.

Lemma generate_audio_failed_save_leaves_the_file_witness :
  let w := sample_world true None (inl (Exception (py "429 from TTS API"))) in
  gtts_init w (py "Hello") (language_code AudioGenerator_init (py "Lisa")) false
  = None
  /\ gtts_audio w (py "Hello") (language_code AudioGenerator_init (py "Lisa")) false
     = inl (Exception (py "429 from TTS API"))
  /\ (generate_audio AudioGenerator_init (py "Hello") (py "Lisa") w).1 = inr None
  /\ is_Some (files (generate_audio AudioGenerator_init (py "Hello") (py "Lisa") w).2
                !! (py "/tmp/tmp0.mp3")).
Proof.
  intros w. split; [reflexivity | split; [reflexivity|]].
  destruct (generate_audio_failed_save_leaves_the_file AudioGenerator_init
              (py "Hello") (py "Lisa") w (Exception (py "429 from TTS API"))
              eq_refl eq_refl) as (H1 & H2 & _).
  split; [exact H1 | exact H2].
Defined.

(** X7: When gTTS succeeds, [generate_audio] returns the name of a new
    file that ends in ".mp3" and holds exactly the bytes gTTS gave;
    every other file is as it was and no error is shown. *)
Theorem generate_audio_success_writes_one_file :
  forall (self : AudioGenerator) (text voice : pystr) (w : World)
         (data : list N),
    gtts_init w text (language_code self voice) false = None ->
    gtts_audio w text (language_code self voice) false = inr data ->
    let r := generate_audio self text voice w in
    let name := tmp_stem w (tmp_next w) ++ py ".mp3" in
    r.1 = inr (Some name)
    /\ name <> []
    /\ files r.2 !! name = Some data
    /\ (forall path, path <> name -> files r.2 !! path = files w !! path)
    /\ new_events w r.2
       = [gTTS_call text (language_code self voice) false;
          tempfile_call name; save_call name].
Proof.
  intros self text voice w data Hi Ha r name. subst r.
  rewrite generate_audio_run. cbv zeta. rewrite Hi, Ha. cbn [fst snd].
  split; [reflexivity|]. split.
  { unfold name. intros E. apply app_eq_nil in E as [_ E].
    vm_compute in E. discriminate E. }
  unfold after_tempfile. cbn [files with_tmp_next with_files].
  split; [apply lookup_insert_eq|]. split.
  - intros path Hp. apply lookup_insert_ne.
    intros E. apply Hp. symmetry. exact E.
  - apply new_events_app. unfold emits.
    cbn [trace with_tmp_next with_files with_trace]. reflexivity.
Qed.

Lemma generate_audio_success_writes_one_file_witness :
  let w := sample_world true None (inr [73; 68; 51]%N) in
  gtts_init w (py "Hello") (language_code AudioGenerator_init (py "Lisa")) false
  = None
  /\ gtts_audio w (py "Hello") (language_code AudioGenerator_init (py "Lisa")) false
     = inr [73; 68; 51]%N
  /\ py "/etc/hosts" <> py "/tmp/tmp0.mp3"
  /\ (generate_audio AudioGenerator_init (py "Hello") (py "Lisa") w).1
     = inr (Some (py "/tmp/tmp0.mp3"))
  /\ files (generate_audio AudioGenerator_init (py "Hello") (py "Lisa") w).2
       !! py "/etc/hosts" = None.
Proof.
  intros w.
  assert (Hne : py "/etc/hosts" <> py "/tmp/tmp0.mp3")
    by (vm_compute; discriminate).
  split; [reflexivity | split; [reflexivity | split; [exact Hne|]]].
  destruct (generate_audio_success_writes_one_file AudioGenerator_init
              (py "Hello") (py "Lisa") w [73; 68; 51]%N eq_refl eq_refl)
    as (H1 & _ & _ & H4 & _).
  split; [exact H1|].
  rewrite (H4 (py "/etc/hosts") Hne). reflexivity.
Defined.

(** X8: The three voices map to locales that all start with "en", and only
    that part reaches gTTS: whichever voice is chosen, known or not,
    [generate_audio] and the whole processing step do the same. *)
Theorem voice_choice_changes_nothing :
  forall (cfg : EchoVerseConfig) (text tone voice voice' : pystr) (w : World),
    language_code AudioGenerator_init voice = py "en"
    /\ generate_audio AudioGenerator_init text voice w
       = generate_audio AudioGenerator_init text voice' w
    /\ render_processing_section (EchoVerseApp_of cfg) text tone voice w
       = render_processing_section (EchoVerseApp_of cfg) text tone voice' w.
Proof.
  intros cfg text tone voice voice' w.
  assert (Hg : forall t w0,
             generate_audio AudioGenerator_init t voice w0
             = generate_audio AudioGenerator_init t voice' w0).
  { intros t w0. apply generate_audio_same_code.
    rewrite !language_code_en. reflexivity. }
  split; [apply language_code_en|]. split; [apply Hg|].
  destruct (nonempty (strip text)) eqn:Hs.
  - destruct (pressed w generate_label) eqn:Hp.
    + rewrite !render_processing_section_go by assumption. cbv zeta.
      change (audio_generator (EchoVerseApp_of cfg)) with AudioGenerator_init.
      rewrite Hg. reflexivity.
    + rewrite !render_processing_section_idle by assumption. reflexivity.
  - rewrite !render_processing_section_blank by assumption. reflexivity.
Qed.

(** ** The processing step *)

Lemma rewrite_result_not_blank cfg text tone :
  nonempty (strip text) = true ->
  nonempty (strip (rewrite_result cfg text tone)) = true.
Proof.
  rewrite !nonempty_strip. intros H.
  apply negb_true_iff in H. apply negb_true_iff.
  unfold rewrite_result, _simulate_rewrite.
  destruct (credentials_valid cfg); [|exact H].
  repeat case_bool_decide; rewrite ?forallb_app, H;
    cbn [andb]; rewrite ?andb_false_r; reflexivity.
Qed.

(** X9: Without a press of the Generate button nothing is processed: the
    step returns [(None, None)], asks gTTS for nothing, leaves every
    file alone and draws only the hint about empty text or the button
    itself. *)
Theorem no_press_no_processing :
  forall (self : EchoVerseApp) (text tone voice : pystr) (w : World),
    pressed w generate_label = false ->
    let r := render_processing_section self text tone voice w in
    r.1 = inr (None, None)
    /\ files r.2 = files w
    /\ tmp_next r.2 = tmp_next w
    /\ gTTS_requests w r.2 = []
    /\ (new_events w r.2 = [st_info (py "Please enter some text to continue.")]
        \/ new_events w r.2 = [st_button generate_label]).
Proof.
  intros self text tone voice w Hp r. subst r.
  rewrite render_processing_section_requests, Hp, andb_false_r.
  destruct (nonempty (strip text)) eqn:Hs.
  - rewrite render_processing_section_idle by assumption. cbn [fst snd].
    rewrite new_events_emits. repeat split. right. reflexivity.
  - rewrite render_processing_section_blank by assumption. cbn [fst snd].
    rewrite new_events_emits. repeat split. left. reflexivity.
Qed.

Lemma no_press_no_processing_witness :
  let w := sample_world false None (inr [73; 68; 51]%N) in
  pressed w generate_label = false
  /\ (render_processing_section EchoVerseApp_init (py "Hello world")
        (py "Neutral") (py "Lisa") w).1 = inr (None, None).
Proof.
  intros w. split; [reflexivity|].
  destruct (no_press_no_processing EchoVerseApp_init (py "Hello world")
              (py "Neutral") (py "Lisa") w eq_refl) as (H & _).
  exact H.
Defined.

(** X10: Whatever the processing step returns can be used as it is: a
    returned text comes only from a pressed button and a text that is
    not blank, and is itself not blank; a returned file name is not
    empty and names a file holding the bytes gTTS gave for that text;
    a missing file name means that gTTS raised. *)
Theorem processing_result_is_usable :
  forall (self : EchoVerseApp) (text tone voice : pystr) (w : World)
         (t : pystr) (a : option pystr),
    (render_processing_section self text tone voice w).1 = inr (Some t, a) ->
    pressed w generate_label = true
    /\ nonempty (strip text) = true
    /\ nonempty (strip t) = true
    /\ match a with
       | Some name =>
           name <> []
           /\ exists data,
                files (render_processing_section self text tone voice w).2 !! name
                = Some data
                /\ gtts_audio w t (language_code (audio_generator self) voice) false
                   = inr data
       | None => engine_raises w t (language_code (audio_generator self) voice) false
       end.
Proof.
  intros self text tone voice w t a H.
  destruct (nonempty (strip text)) eqn:Hs.
  2:{ rewrite render_processing_section_blank in H by assumption. discriminate H. }
  destruct (pressed w generate_label) eqn:Hp.
  2:{ rewrite render_processing_section_idle in H by assumption. discriminate H. }
  rewrite render_processing_section_go in * by assumption. cbv zeta in *.
  rewrite generate_audio_run in *. cbv zeta in *.
  change (gtts_init (before_audio self w)) with (gtts_init w) in *.
  change (gtts_audio (before_audio self w)) with (gtts_audio w) in *.
  pose proof (rewrite_result_not_blank (config (rewriter self)) text tone Hs) as Hb.
  unfold engine_raises.
  destruct (gtts_init w _ _ false) as [e|] eqn:Hi.
  - cbn [fst snd] in *. injection H as <- <-. repeat split; eauto.
  - destruct (gtts_audio w _ _ false) as [e|data] eqn:Ha; cbn [fst snd] in *;
      injection H as <- <-.
    + repeat split; eauto.
    + repeat split; try assumption.
      * intros E. apply app_eq_nil in E as [_ E]. vm_compute in E. discriminate E.
      * exists data. split; [|exact Ha].
        unfold after_tempfile. cbn [files with_tmp_next with_files].
        apply lookup_insert_eq.
Qed.

Lemma processing_result_is_usable_witness :
  let w := sample_world true None (inr [73; 68; 51]%N) in
  (render_processing_section EchoVerseApp_init (py "Hello world")
     (py "Neutral") (py "Lisa") w).1
  = inr (Some (py "Hello world"), Some (py "/tmp/tmp0.mp3"))
  /\ nonempty (strip (py "Hello world")) = true.
Proof.
  intros w.
  assert (H : (render_processing_section EchoVerseApp_init (py "Hello world")
                 (py "Neutral") (py "Lisa") w).1
              = inr (Some (py "Hello world"), Some (py "/tmp/tmp0.mp3")))
    by (vm_compute; reflexivity).
  split; [exact H|].
  destruct (processing_result_is_usable EchoVerseApp_init (py "Hello world")
              (py "Neutral") (py "Lisa") w _ _ H) as (_ & H2 & _).
  exact H2.
Defined.

(** X11: One run of the processing step asks gTTS at most once and makes at
    most one temporary file; no other file changes. *)
Theorem processing_makes_at_most_one_file :
  forall (self : EchoVerseApp) (text tone voice : pystr) (w : World),
    let r := render_processing_section self text tone voice w in
    length (gTTS_requests w r.2) <= 1
    /\ tmp_next w <= tmp_next r.2 <= S (tmp_next w)
    /\ forall path,
         path <> tmp_stem w (tmp_next w) ++ py ".mp3" ->
         files r.2 !! path = files w !! path.
Proof.
  intros self text tone voice w r. subst r.
  rewrite render_processing_section_requests.
  split; [destruct (_ && _); cbn [length]; lia|].
  destruct (nonempty (strip text)) eqn:Hs.
  2:{ rewrite render_processing_section_blank by assumption. cbn [fst snd].
      split; [cbn [tmp_next emits with_trace]; lia | reflexivity]. }
  destruct (pressed w generate_label) eqn:Hp.
  2:{ rewrite render_processing_section_idle by assumption. cbn [fst snd].
      split; [cbn [tmp_next emits with_trace]; lia | reflexivity]. }
  rewrite render_processing_section_go by assumption. cbv zeta.
  rewrite generate_audio_run. cbv zeta.
  change (gtts_init (before_audio self w)) with (gtts_init w).
  change (gtts_audio (before_audio self w)) with (gtts_audio w).
  change (tmp_stem (before_audio self w)) with (tmp_stem w).
  change (tmp_next (before_audio self w)) with (tmp_next w).
  destruct (gtts_init w _ _ false) as [e|].
  - cbn [fst snd]. split; [cbn [tmp_next emits with_trace before_audio]; lia | reflexivity].
  - destruct (gtts_audio w _ _ false) as [e|data]; cbn [fst snd];
      unfold after_tempfile;
      cbn [files tmp_next tmp_stem with_tmp_next with_files emits with_trace
             before_audio];
      (split; [lia|]); intros path Hpath;
      (rewrite lookup_insert_ne; [reflexivity|]);
      intros E; apply Hpath; symmetry; exact E.
Qed.

Lemma processing_makes_at_most_one_file_witness :
  let w := sample_world true None (inr [73; 68; 51]%N) in
  py "/etc/hosts" <> tmp_stem w (tmp_next w) ++ py ".mp3"
  /\ files (render_processing_section EchoVerseApp_init (py "Hello world")
              (py "Neutral") (py "Lisa") w).2 !! py "/etc/hosts" = None.
Proof.
  intros w.
  assert (Hne : py "/etc/hosts" <> tmp_stem w (tmp_next w) ++ py ".mp3")
    by (vm_compute; discriminate).
  split; [exact Hne|].
  destruct (processing_makes_at_most_one_file EchoVerseApp_init
              (py "Hello world") (py "Neutral") (py "Lisa") w) as (_ & _ & H).
  rewrite (H (py "/etc/hosts") Hne). reflexivity.
Defined.

(** ** The audio section *)

(** X12: A file name whose file is gone draws neither the player nor the
    download button, and raises nothing; the headings and the
    statistics are still shown. *)
Theorem audio_section_of_a_missing_file :
  forall (self : EchoVerseApp) (path text : pystr) (w : World),
    path <> [] ->
    files w !! path = None ->
    render_audio_section self (Some path) text w
    = (inr tt,
       emits [st_subheader (127925%N :: py " Generated Audiobook");
              st_columns [3; 1];
              st_markdown (py "**Listen to your audiobook:**");
              st_markdown (py "**Download:**");
              st_info (statistics_line (length text) (length (split text))
                         (length text / 200))] w).
Proof.
  intros self path text w Hp Hf.
  unfold render_audio_section.
  replace (truthy (Some path)) with true
    by (destruct path; [congruence | reflexivity]).
  unfold mbind at 1, Eff_bind at 1, emit at 1.
  unfold mbind at 1, Eff_bind at 1, emit at 1.
  unfold mbind at 1, Eff_bind at 1, emit at 1.
  unfold mbind at 1, Eff_bind at 1.
  rewrite create_audio_player_missing by exact Hf.
  unfold mbind at 1, Eff_bind at 1, emit at 1.
  unfold mbind at 1, Eff_bind at 1, time_now.
  unfold mbind at 1, Eff_bind at 1.
  rewrite create_download_button_missing by exact Hf.
  unfold emit, emits, with_trace, statistics_line.
  cbn [trace pressed files tmp_stem tmp_next clock gtts_init gtts_audio].
  rewrite <- !app_assoc. reflexivity.
Qed.

Lemma audio_section_of_a_missing_file_witness :
  let w := sample_world true None (inr []) in
  py "/tmp/gone.mp3" <> []
  /\ files w !! py "/tmp/gone.mp3" = None
  /\ (render_audio_section EchoVerseApp_init (Some (py "/tmp/gone.mp3"))
        (py "Hello world") w).1 = inr tt.
Proof.
  intros w.
  assert (H1 : py "/tmp/gone.mp3" <> []) by (vm_compute; discriminate).
  assert (H2 : files w !! py "/tmp/gone.mp3" = None) by reflexivity.
  split; [exact H1 | split; [exact H2|]].
  rewrite (audio_section_of_a_missing_file EchoVerseApp_init
             (py "/tmp/gone.mp3") (py "Hello world") w H1 H2).
  reflexivity.
Defined.

(** X13: What [generate_audio] wrote is what the audio section offers: the
    player and the download button both carry the bytes gTTS gave, as
    audio/mp3, and the download is named "audiobook_", the time in
    seconds, ".mp3". *)
Theorem generated_audio_is_what_is_offered :
  forall (self : EchoVerseApp) (text voice : pystr) (w w' : World)
         (name : pystr),
    generate_audio (audio_generator self) text voice w = (inr (Some name), w') ->
    exists data,
      gtts_audio w text (language_code (audio_generator self) voice) false
      = inr data
      /\ render_audio_section self (Some name) text w'
         = (inr tt,
            emits [st_subheader (127925%N :: py " Generated Audiobook");
                   st_columns [3; 1];
                   st_markdown (py "**Listen to your audiobook:**");
                   st_audio data (py "audio/mp3");
                   st_markdown (py "**Download:**");
                   st_download_button (128229%N :: py " Download Audio") data
                     (py "audiobook_" ++ str_int (clock w) ++ py ".mp3")
                     (py "audio/mp3");
                   st_info (statistics_line (length text) (length (split text))
                              (length text / 200))] w').
Proof.
  intros self text voice w w' name H.
  rewrite generate_audio_run in H. cbv zeta in H.
  destruct (gtts_init w text _ false) as [e|]; [discriminate H|].
  destruct (gtts_audio w text _ false) as [e|data]; [discriminate H|].
  injection H as <- <-. exists data. split; [reflexivity|].
  rewrite (render_audio_section_run self _ text data).
  - reflexivity.
  - intros E. apply app_eq_nil in E as [_ E]. vm_compute in E. discriminate E.
  - unfold after_tempfile. cbn [files with_tmp_next with_files].
    apply lookup_insert_eq.
Qed.

Lemma generated_audio_is_what_is_offered_witness :
  let w := sample_world true None (inr [73; 68; 51]%N) in
  let r := generate_audio AudioGenerator_init (py "Hello") (py "Lisa") w in
  r = (inr (Some (py "/tmp/tmp0.mp3")), r.2)
  /\ In (st_audio [73; 68; 51]%N (py "audio/mp3"))
        (new_events r.2
           (render_audio_section EchoVerseApp_init (Some (py "/tmp/tmp0.mp3"))
              (py "Hello") r.2).2).
Proof.
  intros w r.
  assert (H : r = (inr (Some (py "/tmp/tmp0.mp3")), r.2))
    by (vm_compute; reflexivity).
  split; [exact H|].
  destruct (generated_audio_is_what_is_offered EchoVerseApp_init (py "Hello")
              (py "Lisa") w r.2 (py "/tmp/tmp0.mp3") H) as (data & Hd & Hr).
  rewrite Hr. cbn [snd]. rewrite new_events_emits.
  vm_compute in Hd. injection Hd as <-.
  do 3 right. left. reflexivity.
Defined.

(** ** Runs of the page *)

Section PageRuns.

Lemma advance_advance w1 w2 l1 l2 s :
  advance w2 l2 (advance w1 l1 s) = advance w2 (l1 ++ l2) s.
Proof.
  unfold advance, with_page, with_world. cbn [world page user utf8_decode].
  rewrite <- app_assoc. reflexivity.
Qed.

Lemma events_of_app l1 l2 : events_of (l1 ++ l2) = events_of l1 ++ events_of l2.
Proof. apply omap_app. Qed.

Lemma events_of_shown l : events_of (map shown l) = l.
Proof. induction l as [|e l IH]; [reflexivity|]. cbn. f_equal. exact IH. Qed.

Lemma draws_draws l1 l2 s : draws l2 (draws l1 s) = draws (l1 ++ l2) s.
Proof.
  unfold draws. rewrite advance_advance.
  cbn [world advance with_page with_world].
  rewrite emits_emits, events_of_app. reflexivity.
Qed.

Lemma new_elements_advance w l s : new_elements s (advance w l s) = l.
Proof. unfold new_elements. cbn. apply drop_app_length. Qed.

Lemma show_run el s :
  show el s = (inr tt, advance (world s) [el] s).
Proof. reflexivity. Qed.

(** A method of the first part that left the world [w'] with the new
    events [l]. *)
Lemma lift_run {A} (m : Eff A) r w' l s :
  m (world s) = (r, w') ->
  trace w' = trace (world s) ++ l ->
  lift m s = (r, advance w' (map shown l) s).
Proof.
  intros Hm Ht. unfold lift. rewrite Hm. cbn [fst snd].
  rewrite (new_events_app (world s) w' l Ht). reflexivity.
Qed.

Lemma lift_emit e s :
  lift (emit e) s = (inr tt, advance (emits [e] (world s)) [shown e] s).
Proof. apply (lift_run (emit e) (inr tt) _ [e]); reflexivity. Qed.

(** One step of a sequence whose first part returns. *)
Lemma page_bind_run {A B} (m : Page A) (k : A -> Page B) a s s' :
  m s = (inr a, s') -> (m ≫= k) s = k a s'.
Proof. intros H. unfold mbind, Page_bind. rewrite H. reflexivity. Qed.

Lemma picked_in i (options : list pystr) :
  options <> [] -> In (picked i options) options.
Proof.
  intros H. unfold picked.
  destruct (Nat.lt_ge_cases i (length options)) as [Hi|Hi].
  - apply nth_In, Hi.
  - rewrite nth_overflow by exact Hi.
    destruct options; [congruence | left; reflexivity].
Qed.

Lemma render_header_run self s :
  render_header self s = (inr tt, draws header_elements s).
Proof.
  unfold render_header.
  rewrite (page_bind_run _ _ _ _ _ (show_run _ s)).
  rewrite (page_bind_run _ _ _ _ _ (lift_emit _ _)).
  rewrite show_run, !advance_advance.
  unfold draws, header_elements, emits, with_trace, advance, with_page, with_world.
  cbn [world page user utf8_decode trace pressed files tmp_stem tmp_next clock
         gtts_init gtts_audio app events_of omap].
  rewrite <- ?app_assoc. reflexivity.
Qed.

Ltac page_step H :=
  rewrite (page_bind_run _ _ _ _ _ H).

Lemma events_of_cons el l :
  events_of (el :: l)
  = match el with shown e => e :: events_of l | _ => events_of l end.
Proof. destruct el; reflexivity. Qed.

Lemma events_of_nil : events_of [] = [].
Proof. reflexivity. Qed.

Ltac page_done :=
  rewrite ?advance_advance;
  unfold draws;
  cbn [world page user utf8_decode advance with_page with_world
         app_config rewriter audio_generator config set_config entered_config
         WATSON_API_KEY WATSON_URL WATSONX_PROJECT_ID];
  rewrite ?emits_emits;
  cbn [app];
  rewrite ?events_of_cons, ?events_of_nil;
  cbn [app];
  lazymatch goal with |- ?a = ?b => constr_eq a b end;
  reflexivity.

Lemma text_input_run label value password help s :
  text_input label value password help s
  = (inr (default value (typed (user s) label)),
     advance (world s) [st_text_input label value password help] s).
Proof. reflexivity. Qed.

Lemma selectbox_run label options help s :
  selectbox label options help s
  = (inr (picked (choice (user s) label) options),
     advance (world s) [st_selectbox label options help] s).
Proof. reflexivity. Qed.

Lemma radio_run label options horizontal s :
  radio label options horizontal s
  = (inr (picked (choice (user s) label) options),
     advance (world s) [st_radio label options horizontal] s).
Proof. reflexivity. Qed.

Lemma text_area_run label value height placeholder disabled key s :
  text_area label value height placeholder disabled key s
  = (inr (if disabled then value else default value (typed (user s) label)),
     advance (world s) [st_text_area label value height placeholder disabled key] s).
Proof. reflexivity. Qed.

Lemma file_uploader_run label type help s :
  file_uploader label type help s
  = (inr (upload (user s)), advance (world s) [st_file_uploader label type help] s).
Proof. reflexivity. Qed.

Lemma render_credentials_section_run self s :
  render_credentials_section self s
  = (inr (set_config (entered_config (app_config self) (user s)) self),
     draws (credentials_elements (app_config self)) s).
Proof.
  unfold render_credentials_section.
  page_step (show_run (st_header ([9881; 65039]%N ++ py " Configuration")) s).
  page_step (lift_emit (st_markdown (py "### IBM Watson Credentials"))
               (advance (world s) [st_header ([9881; 65039]%N ++ py " Configuration")] s)).
  rewrite advance_advance.
  match goal with |- (text_input ?l ?v ?p ?h ≫= _) ?s0 = _ =>
    page_step (text_input_run l v p h s0) end.
  rewrite advance_advance. cbv zeta.
  match goal with |- (text_input ?l ?v ?p ?h ≫= _) ?s0 = _ =>
    page_step (text_input_run l v p h s0) end.
  rewrite advance_advance.
  match goal with |- (text_input ?l ?v ?p ?h ≫= _) ?s0 = _ =>
    page_step (text_input_run l v p h s0) end.
  rewrite advance_advance.
  match goal with |- (lift (emit ?e) ≫= _) ?s0 = _ =>
    page_step (lift_emit e s0) end.
  rewrite advance_advance.
  match goal with |- (lift (emit ?e) ≫= _) ?s0 = _ =>
    page_step (lift_emit e s0) end.
  rewrite advance_advance.
  match goal with |- (lift (emit ?e) ≫= _) ?s0 = _ =>
    page_step (lift_emit e s0) end.
  rewrite advance_advance.
  unfold mret, Page_ret, entered_config, credentials_elements.
  f_equal; page_done.
Qed.

Lemma render_customization_section_run self s :
  render_customization_section self s
  = (inr (chosen_tone (user s), chosen_voice (user s)),
     draws customization_elements s).
Proof.
  unfold render_customization_section.
  page_step (lift_emit (st_subheader (127912%N :: py " Customization Options")) s).
  match goal with |- (lift (emit ?e) ≫= _) ?s0 = _ =>
    page_step (lift_emit e s0) end.
  rewrite advance_advance.
  match goal with |- (selectbox ?l ?o ?h ≫= _) ?s0 = _ =>
    page_step (selectbox_run l o h s0) end.
  rewrite advance_advance.
  match goal with |- (selectbox ?l ?o ?h ≫= _) ?s0 = _ =>
    page_step (selectbox_run l o h s0) end.
  rewrite advance_advance.
  unfold mret, Page_ret, customization_elements. f_equal; page_done.
Qed.

Lemma render_comparison_section_run self original rewritten s :
  rewritten <> [] ->
  render_comparison_section self original (Some rewritten) s
  = (inr tt, draws (comparison_elements original rewritten) s).
Proof.
  intros Hr. unfold render_comparison_section.
  replace (nonempty rewritten) with true
    by (destruct rewritten; [congruence | reflexivity]).
  page_step (lift_emit (st_subheader (128203%N :: py " Text Comparison")) s).
  match goal with |- (lift (emit ?e) ≫= _) ?s0 = _ =>
    page_step (lift_emit e s0) end.
  rewrite advance_advance.
  match goal with |- (lift (emit ?e) ≫= _) ?s0 = _ =>
    page_step (lift_emit e s0) end.
  rewrite advance_advance.
  match goal with |- (text_area ?l ?v ?h ?p ?d ?k ≫= _) ?s0 = _ =>
    page_step (text_area_run l v h p d k s0) end.
  rewrite advance_advance.
  match goal with |- (lift (emit ?e) ≫= _) ?s0 = _ =>
    page_step (lift_emit e s0) end.
  rewrite advance_advance.
  match goal with |- (text_area ?l ?v ?h ?p ?d ?k ≫= _) ?s0 = _ =>
    page_step (text_area_run l v h p d k s0) end.
  rewrite advance_advance.
  unfold mret, Page_ret, comparison_elements. f_equal; page_done.
Qed.

Lemma render_input_section_run self s :
  render_input_section self s
  = (inr (input_outcome (user s) (utf8_decode s)).1,
     draws (input_outcome (user s) (utf8_decode s)).2 s).
Proof.
  unfold render_input_section, input_outcome.
  page_step (lift_emit (st_subheader (128221%N :: py " Input Your Text")) s).
  match goal with |- (radio ?l ?o ?h ≫= _) ?s0 = _ =>
    page_step (radio_run l o h s0) end.
  rewrite advance_advance. cbv zeta.
  cbn [user advance with_page with_world].
  case_bool_decide.
  - match goal with |- (text_area ?l ?v ?h ?p ?d ?k ≫= _) ?s0 = _ =>
      page_step (text_area_run l v h p d k s0) end.
    rewrite advance_advance. cbn [fst snd].
    unfold mret, Page_ret. f_equal; page_done.
  - match goal with |- (file_uploader ?l ?t ?h ≫= _) ?s0 = _ =>
      page_step (file_uploader_run l t h s0) end.
    rewrite advance_advance. cbn [user advance with_page with_world].
    destruct (upload (user s)) as [f|].
    + unfold page_try, decode.
      unfold mbind at 1, Page_bind at 1.
      cbn [utf8_decode advance with_page with_world].
      destruct (utf8_decode s (file_bytes f)) as [e|text]; cbn [fst snd].
      * match goal with |- (lift (emit ?e) ≫= _) ?s0 = _ =>
          page_step (lift_emit e s0) end.
        rewrite advance_advance.
        unfold mret, Page_ret. f_equal; page_done.
      * rewrite (page_bind_run _ _ _ _ _ (show_run _ _)).
        rewrite advance_advance.
        unfold mret, Page_ret. f_equal; page_done.
    + cbn [fst snd]. unfold mret, Page_ret. f_equal; page_done.
Qed.

Lemma lift_def {A} (m : Eff A) s :
  lift m s
  = ((m (world s)).1,
     advance (m (world s)).2
       (map shown (new_events (world s) (m (world s)).2)) s).
Proof. reflexivity. Qed.

Lemma user_draws l s : user (draws l s) = user s.
Proof. reflexivity. Qed.

Lemma utf8_decode_draws l s : utf8_decode (draws l s) = utf8_decode s.
Proof. reflexivity. Qed.

Lemma world_draws l s : world (draws l s) = emits (events_of l) (world s).
Proof. reflexivity. Qed.

Lemma show_divider_run s : show st_divider s = (inr tt, draws [st_divider] s).
Proof.
  rewrite show_run. unfold draws.
  rewrite events_of_cons, events_of_nil, emits_nil. reflexivity.
Qed.

(** [run] up to the processing step. *)
Lemma run_front self s :
  run self s
  = (lift (render_processing_section
             (set_config (entered_config (app_config self) (user s)) self)
             (input_outcome (user s) (utf8_decode s)).1
             (chosen_tone (user s)) (chosen_voice (user s)))
       ≫= show_results
             (set_config (entered_config (app_config self) (user s)) self)
             (input_outcome (user s) (utf8_decode s)).1)
      (draws (front_elements self s) s).
Proof.
  unfold run.
  page_step (render_header_run self s).
  page_step (render_credentials_section_run self (draws header_elements s)).
  rewrite draws_draws, user_draws.
  match goal with |- (render_input_section ?a ≫= _) ?s0 = _ =>
    page_step (render_input_section_run a s0) end.
  rewrite draws_draws, user_draws, utf8_decode_draws.
  match goal with |- (render_customization_section ?a ≫= _) ?s0 = _ =>
    page_step (render_customization_section_run a s0) end.
  rewrite draws_draws, user_draws.
  cbv beta iota zeta.
  match goal with |- (show st_divider ≫= _) ?s0 = _ =>
    page_step (show_divider_run s0) end.
  rewrite draws_draws.
  unfold show_results, front_elements.
  rewrite <- !app_assoc.
  lazymatch goal with |- ?a = ?b => constr_eq a b end.
  reflexivity.
Qed.

(** The whole of [run], read off the processing step [P] and the audio
    section [A] it contains. *)
Lemma run_layout self s :
  let self' := set_config (entered_config (app_config self) (user s)) self in
  let text := (input_outcome (user s) (utf8_decode s)).1 in
  let front := front_elements self s in
  let w1 := emits (events_of front) (world s) in
  let P := render_processing_section self' text (chosen_tone (user s))
             (chosen_voice (user s)) w1 in
  let processed := front ++ map shown (new_events w1 P.2) in
  run self s
  = match P.1 with
    | inl e => (inl e, advance P.2 processed s)
    | inr (None, _) => (inr tt, advance P.2 processed s)
    | inr (Some t, a) =>
        if nonempty t then
          let w2 := emits (events_of (comparison_elements text t)) P.2 in
          let A := render_audio_section self' a t w2 in
          (A.1,
           advance A.2
             (processed ++ comparison_elements text t ++ [st_divider]
                ++ map shown (new_events w2 A.2)) s)
        else (inr tt, advance P.2 processed s)
    end.
Proof.
  intros self' text front w1 P processed.
  rewrite run_front. fold self' text front.
  unfold mbind at 1, Page_bind at 1. rewrite lift_def, world_draws.
  fold w1. fold P.
  assert (Hs1 : advance P.2 (map shown (new_events w1 P.2)) (draws front s)
                = advance P.2 processed s)
    by (unfold draws; rewrite advance_advance; reflexivity).
  rewrite Hs1.
  destruct P.1 as [e|[[t|] a]]; [reflexivity| |reflexivity].
  unfold show_results.
  destruct (nonempty t) eqn:Ht; [|reflexivity].
  assert (Hne : t <> []) by (destruct t; [discriminate | congruence]).
  page_step (render_comparison_section_run self' text t
               (advance P.2 processed s) Hne).
  match goal with |- (show st_divider ≫= _) ?s0 = _ =>
    page_step (show_divider_run s0) end.
  rewrite draws_draws, lift_def, world_draws.
  change (world (advance P.2 processed s)) with P.2.
  rewrite events_of_app, events_of_cons, events_of_nil, app_nil_r.
  cbv zeta. unfold draws. rewrite !advance_advance.
  rewrite <- !app_assoc.
  lazymatch goal with |- ?a = ?b => constr_eq a b end.
  reflexivity.
Qed.

Lemma render_audio_section_returns self audio_file text w :
  (render_audio_section self audio_file text w).1 = inr tt.
Proof.
  destruct (truthy audio_file) eqn:Ht.
  - destruct (render_audio_section_statistics self audio_file text w Ht)
      as (earlier & ->). reflexivity.
  - unfold render_audio_section. rewrite Ht. reflexivity.
Qed.

(** A pressed button and a text that is not blank give a rewritten
    text, with or without audio. *)
Lemma processing_go_result self text tone voice w :
  nonempty (strip text) = true ->
  pressed w generate_label = true ->
  exists a,
    (render_processing_section self text tone voice w).1
    = inr (Some (rewrite_result (config (rewriter self)) text tone), a).
Proof.
  intros Hs Hp. rewrite render_processing_section_go by assumption. cbv zeta.
  destruct (generate_audio_returns (audio_generator self)
              (rewrite_result (config (rewriter self)) text tone) voice
              (before_audio self w)) as (r & w' & ->).
  eauto.
Qed.

(** Nothing drawn before the processing step is a request to gTTS. *)
Lemma front_elements_requests self s :
  omap (fun ev => match ev with
                  | gTTS_call text lang slow => Some (text, lang, slow)
                  | _ => None
                  end) (events_of (front_elements self s)) = [].
Proof.
  unfold front_elements, input_outcome.
  rewrite !events_of_app, !omap_app.
  case_bool_decide; [reflexivity|].
  destruct (upload (user s)) as [f|]; [|reflexivity].
  destruct (utf8_decode s (file_bytes f)); reflexivity.
Qed.

(** [main] is [run] on a new application, after the page set-up. *)
Lemma main_run s :
  main s
  = run EchoVerseApp_init
      (advance (world s)
         [st_set_page_config (py "EchoVerse - AI Audiobook Creator")
            [127911%N] (py "wide")] s).
Proof.
  unfold main.
  assert (H : EchoVerseApp_new s
              = (inr EchoVerseApp_init,
                 advance (world s)
                   [st_set_page_config (py "EchoVerse - AI Audiobook Creator")
                      [127911%N] (py "wide")] s)).
  { unfold EchoVerseApp_new, setup_page. cbv zeta.
    page_step (show_run (st_set_page_config (py "EchoVerse - AI Audiobook Creator")
                           [127911%N] (py "wide")) s).
    reflexivity. }
  page_step H. reflexivity.
Qed.

End PageRuns.

(** ** The input, the select boxes and the sidebar *)

(** X14: Whatever the user picks, the tone and the voice that
    [render_customization_section] returns are among the three tones
    and the three voices: the voice is always found in the voice table
    and the tone always has a template. *)
Theorem customization_stays_in_the_lists :
  forall (self : EchoVerseApp) (s : Session),
    exists tone voice s',
      render_customization_section self s = (inr (tone, voice), s')
      /\ In tone tones
      /\ In voice voice_names
      /\ is_Some (voices AudioGenerator_init !! voice)
      /\ forall text, length text < length (_simulate_rewrite text tone).
Proof.
  intros self s. rewrite render_customization_section_run.
  exists (chosen_tone (user s)), (chosen_voice (user s)), (draws customization_elements s).
  assert (Ht : In (chosen_tone (user s)) tones)
    by (apply picked_in; discriminate).
  assert (Hv : In (chosen_voice (user s)) voice_names)
    by (apply picked_in; discriminate).
  split; [reflexivity|]. split; [exact Ht|]. split; [exact Hv|]. split.
  - unfold voice_names in Hv. cbn [In] in Hv.
    destruct Hv as [<-|[<-|[<-|[]]]]; vm_compute; eauto.
  - intros text. pose proof (simulate_rewrite_longer text _ Ht). lia.
Qed.

(** X15: An uploaded file that cannot be decoded raises nothing out of
    [render_input_section]: the error is shown under the uploader and
    the empty text is returned. *)
Theorem unreadable_upload_gives_empty_text :
  forall (self : EchoVerseApp) (s : Session) (f : UploadedFile) (e : Exn),
    choice (user s) (py "Choose input method:") = 1 ->
    upload (user s) = Some f ->
    utf8_decode s (file_bytes f) = inl e ->
    (render_input_section self s).1 = inr []
    /\ new_elements s (render_input_section self s).2
       = [shown (st_subheader (128221%N :: py " Input Your Text"));
          st_radio (py "Choose input method:") [py "Paste Text"; py "Upload File"]
            true;
          st_file_uploader (py "Upload a text file:") [py "txt"]
            (py "Upload a .txt file to convert to audiobook");
          shown (st_error (py "Error reading file: " ++ str_exn e))].
Proof.
  intros self s f e Hc Hu Hd.
  rewrite render_input_section_run. cbn [fst snd].
  unfold draws. rewrite new_elements_advance.
  unfold input_outcome. rewrite Hc, Hu, Hd.
  rewrite bool_decide_eq_false_2 by (vm_compute; discriminate).
  split; reflexivity.
Qed.

Lemma unreadable_upload_gives_empty_text_witness :
  let f := {| file_name := py "notes.txt"; file_bytes := [72; 255; 105]%N |} in
  let s := sample_session (sample_world true None (inr []))
             (sample_user 1 None (Some f) None) in
  choice (user s) (py "Choose input method:") = 1
  /\ upload (user s) = Some f
  /\ utf8_decode s (file_bytes f)
     = inl (Exception (py "'utf-8' codec can't decode byte"))
  /\ (render_input_section EchoVerseApp_init s).1 = inr [].
Proof.
  intros f s.
  split; [reflexivity | split; [reflexivity | split; [reflexivity|]]].
  destruct (unreadable_upload_gives_empty_text EchoVerseApp_init s f
              (Exception (py "'utf-8' codec can't decode byte"))
              eq_refl eq_refl eq_refl) as [H _].
  exact H.
Defined.

(** X16: An uploaded file that decodes is returned whole as the input text,
    and the success message names the file. *)
Theorem readable_upload_is_the_input_text :
  forall (self : EchoVerseApp) (s : Session) (f : UploadedFile) (text : pystr),
    choice (user s) (py "Choose input method:") = 1 ->
    upload (user s) = Some f ->
    utf8_decode s (file_bytes f) = inr text ->
    (render_input_section self s).1 = inr text
    /\ new_elements s (render_input_section self s).2
       = [shown (st_subheader (128221%N :: py " Input Your Text"));
          st_radio (py "Choose input method:") [py "Paste Text"; py "Upload File"]
            true;
          st_file_uploader (py "Upload a text file:") [py "txt"]
            (py "Upload a .txt file to convert to audiobook");
          st_success (py "File '" ++ file_name f ++ py "' uploaded successfully!")].
Proof.
  intros self s f text Hc Hu Hd.
  rewrite render_input_section_run. cbn [fst snd].
  unfold draws. rewrite new_elements_advance.
  unfold input_outcome. rewrite Hc, Hu, Hd.
  rewrite bool_decide_eq_false_2 by (vm_compute; discriminate).
  split; reflexivity.
Qed.

Lemma readable_upload_is_the_input_text_witness :
  let f := {| file_name := py "notes.txt"; file_bytes := py "Hi there" |} in
  let s := sample_session (sample_world true None (inr []))
             (sample_user 1 None (Some f) None) in
  choice (user s) (py "Choose input method:") = 1
  /\ upload (user s) = Some f
  /\ utf8_decode s (file_bytes f) = inr (py "Hi there")
  /\ (render_input_section EchoVerseApp_init s).1 = inr (py "Hi there").
Proof.
  intros f s.
  split; [reflexivity | split; [reflexivity | split; [reflexivity|]]].
  destruct (readable_upload_is_the_input_text EchoVerseApp_init s f
              (py "Hi there") eq_refl eq_refl eq_refl) as [H _].
  exact H.
Defined.

(** X17: After the sidebar the application and its rewriter hold the same
    credentials: each one as entered, or as held before where its
    input was left untouched.  The key and the project id are asked
    for as passwords, the URL in clear. *)
Theorem sidebar_stores_the_entered_credentials :
  forall (self : EchoVerseApp) (s : Session),
    exists self' s',
      render_credentials_section self s = (inr self', s')
      /\ app_config self' = entered_config (app_config self) (user s)
      /\ config (rewriter self') = app_config self'
      /\ audio_generator self' = audio_generator self
      /\ In (st_text_input (py "API Key:") (WATSON_API_KEY (app_config self))
               true (py "Your IBM Watson API key")) (new_elements s s')
      /\ In (st_text_input (py "Service URL:") (WATSON_URL (app_config self))
               false (py "Your IBM Watson service URL")) (new_elements s s')
      /\ In (st_text_input (py "Watsonx Project ID:")
               (WATSONX_PROJECT_ID (app_config self)) true
               (py "Your Watsonx project ID")) (new_elements s s').
Proof.
  intros self s. rewrite render_credentials_section_run.
  eexists _, _. split; [reflexivity|].
  unfold draws. rewrite new_elements_advance.
  repeat split; unfold credentials_elements; cbn [In]; tauto.
Qed.

Section RunCases.

Lemma new_events_refl w : new_events w w = [].
Proof. unfold new_events. apply drop_all. Qed.

Lemma trace_before_audio self w :
  trace (before_audio self w)
  = trace w ++ [st_button generate_label; st_spinner (py "Processing your text...")]
      ++ credential_diagnostics (config (rewriter self)).
Proof. reflexivity. Qed.

(** The processing step when gTTS raises: the rewritten text alone,
    and the audio error as the last event. *)
Lemma processing_failure_run self text tone voice w :
  nonempty (strip text) = true ->
  pressed w generate_label = true ->
  engine_raises w (rewrite_result (config (rewriter self)) text tone)
    (language_code (audio_generator self) voice) false ->
  exists e evs,
    (render_processing_section self text tone voice w).1
    = inr (Some (rewrite_result (config (rewriter self)) text tone), None)
    /\ new_events w (render_processing_section self text tone voice w).2
       = evs ++ [st_error (py "Error generating audio: " ++ str_exn e)].
Proof.
  intros Hs Hp Hraise.
  rewrite render_processing_section_go by assumption. cbv zeta.
  rewrite generate_audio_run. cbv zeta.
  change (gtts_init (before_audio self w)) with (gtts_init w).
  change (gtts_audio (before_audio self w)) with (gtts_audio w).
  set (rewritten := rewrite_result (config (rewriter self)) text tone) in *.
  set (code := language_code (audio_generator self) voice) in *.
  set (l1 := [st_button generate_label; st_spinner (py "Processing your text...")]
               ++ credential_diagnostics (config (rewriter self))).
  assert (Ht : trace (before_audio self w) = trace w ++ l1) by reflexivity.
  destruct (gtts_init w rewritten code false) as [e|] eqn:Hi.
  - exists e, (l1 ++ [gTTS_call rewritten code false]).
    cbn [fst snd]. split; [reflexivity|].
    apply new_events_app. unfold emits at 1. cbn [trace with_trace].
    rewrite Ht, <- !app_assoc. reflexivity.
  - destruct Hraise as [[e He]|[e He]]; [congruence|].
    rewrite He. cbn [fst snd].
    exists e, (l1 ++ [gTTS_call rewritten code false;
                      tempfile_call (tmp_stem (before_audio self w)
                                       (tmp_next (before_audio self w))
                                       ++ py ".mp3");
                      save_call (tmp_stem (before_audio self w)
                                   (tmp_next (before_audio self w))
                                   ++ py ".mp3")]).
    split; [reflexivity|].
    apply new_events_app. unfold after_tempfile, emits at 1.
    cbn [trace with_trace with_tmp_next with_files].
    rewrite Ht, <- !app_assoc. reflexivity.
Qed.

(** The processing step when gTTS succeeds: the rewritten text and
    the name of a file holding the bytes. *)
Lemma processing_success_run self text tone voice w data :
  nonempty (strip text) = true ->
  pressed w generate_label = true ->
  gtts_init w (rewrite_result (config (rewriter self)) text tone)
    (language_code (audio_generator self) voice) false = None ->
  gtts_audio w (rewrite_result (config (rewriter self)) text tone)
    (language_code (audio_generator self) voice) false = inr data ->
  exists name,
    (render_processing_section self text tone voice w).1
    = inr (Some (rewrite_result (config (rewriter self)) text tone), Some name)
    /\ name <> []
    /\ files (render_processing_section self text tone voice w).2 !! name
       = Some data
    /\ clock (render_processing_section self text tone voice w).2 = clock w.
Proof.
  intros Hs Hp Hi Ha.
  rewrite render_processing_section_go by assumption. cbv zeta.
  rewrite generate_audio_run. cbv zeta.
  change (gtts_init (before_audio self w)) with (gtts_init w).
  change (gtts_audio (before_audio self w)) with (gtts_audio w).
  rewrite Hi, Ha. cbn [fst snd].
  eexists. split; [reflexivity|]. split.
  - intros E. apply app_eq_nil in E as [_ E]. vm_compute in E. discriminate E.
  - split; [|reflexivity].
    unfold after_tempfile. cbn [files with_tmp_next with_files].
    apply lookup_insert_eq.
Qed.

(** The processing step, once started, first draws the button, the
    spinner and what the credential check shows. *)
Lemma processing_events_prefix self text tone voice w :
  nonempty (strip text) = true ->
  pressed w generate_label = true ->
  exists rest,
    new_events w (render_processing_section self text tone voice w).2
    = [st_button generate_label; st_spinner (py "Processing your text...")]
        ++ credential_diagnostics (config (rewriter self)) ++ rest.
Proof.
  intros Hs Hp.
  rewrite render_processing_section_go by assumption. cbv zeta.
  rewrite generate_audio_run. cbv zeta.
  set (l1 := [st_button generate_label; st_spinner (py "Processing your text...")]
               ++ credential_diagnostics (config (rewriter self))).
  assert (Ht : trace (before_audio self w) = trace w ++ l1) by reflexivity.
  destruct (gtts_init (before_audio self w) _ _ false) as [e|].
  - cbn [fst snd]. eexists [_; _].
    apply new_events_app. unfold emits at 1. cbn [trace with_trace].
    rewrite Ht. unfold l1. rewrite <- !app_assoc. reflexivity.
  - destruct (gtts_audio (before_audio self w) _ _ false) as [e|data];
      cbn [fst snd].
    + eexists [_; _; _; _].
      apply new_events_app. unfold after_tempfile, emits at 1.
      cbn [trace with_trace with_tmp_next with_files].
      rewrite Ht. unfold l1. rewrite <- !app_assoc. reflexivity.
    + eexists [_; _; _].
      apply new_events_app. unfold after_tempfile, emits at 1.
      cbn [trace with_trace with_tmp_next with_files].
      rewrite Ht. unfold l1. rewrite <- !app_assoc. reflexivity.
Qed.

(** What [run] adds to the page once the processing step returned a
    text: the comparison of the input with that text is part of it. *)
Lemma run_shows_the_rewritten_text self s text :
  (input_outcome (user s) (utf8_decode s)).1 = text ->
  nonempty (strip text) = true ->
  pressed (world s) generate_label = true ->
  exists before after,
    new_elements s (run self s).2
    = before
        ++ comparison_elements text
             (rewrite_result (entered_config (app_config self) (user s)) text
                (chosen_tone (user s)))
        ++ after
    /\ forall rest,
         new_events (emits (events_of (front_elements self s)) (world s))
           (render_processing_section
              (set_config (entered_config (app_config self) (user s)) self)
              text (chosen_tone (user s)) (chosen_voice (user s))
              (emits (events_of (front_elements self s)) (world s))).2
         = rest ->
         before = front_elements self s ++ map shown rest.
Proof.
  intros Hin Hs Hp.
  set (self' := set_config (entered_config (app_config self) (user s)) self).
  set (w1 := emits (events_of (front_elements self s)) (world s)).
  destruct (processing_go_result self' text (chosen_tone (user s))
              (chosen_voice (user s)) w1 Hs Hp) as (a & HP).
  change (config (rewriter self'))
    with (entered_config (app_config self) (user s)) in HP.
  set (rewritten := rewrite_result (entered_config (app_config self) (user s))
                      text (chosen_tone (user s))) in *.
  assert (Hne : nonempty rewritten = true).
  { pose proof (rewrite_result_not_blank
                  (entered_config (app_config self) (user s)) text
                  (chosen_tone (user s)) Hs) as Hb.
    fold rewritten in Hb. destruct rewritten; [discriminate Hb | reflexivity]. }
  rewrite run_layout. cbv zeta. rewrite Hin. fold self' w1.
  rewrite HP, Hne. cbn [fst snd]. rewrite new_elements_advance.
  match goal with |- context [?b ++ comparison_elements text rewritten ++ ?c] =>
    exists b, c end.
  split; [reflexivity|].
  intros rest <-. reflexivity.
Qed.

(** [run] only adds to the page. *)
Lemma run_extends_the_page self s :
  exists w l, (run self s).2 = advance w l s.
Proof.
  rewrite run_layout. cbv zeta.
  destruct (render_processing_section _ _ _ _ _).1 as [e|[[t|] a]];
    [eauto | | eauto].
  destruct (nonempty t); eauto.
Qed.

End RunCases.

(** ** One run of the page *)

(** X18: No exception leaves [run]: an unreadable upload, missing
    credentials and a failing gTTS are all turned into messages. *)
Theorem run_never_raises :
  forall (self : EchoVerseApp) (s : Session),
    (run self s).1 = inr tt /\ (main s).1 = inr tt.
Proof.
  assert (Hrun : forall self s, (run self s).1 = inr tt).
  { intros self s. rewrite run_layout. cbv zeta.
    match goal with |- context [render_processing_section ?a ?t ?n ?v ?w] =>
      destruct (render_processing_section_returns a t n v w) as ([[t0|] a0] & w' & ->)
    end; cbn [fst snd]; [|reflexivity].
    destruct (nonempty t0); [|reflexivity].
    cbn [fst]. apply render_audio_section_returns. }
  intros self s. split; [apply Hrun|].
  rewrite main_run. apply Hrun.
Qed.

(** X19: When the input section yields a blank text (nothing pasted, no file,
    an unreadable file, or whitespace only) the run ends with the hint
    to enter some text: no Generate button, no comparison, no audio,
    no request to gTTS, no file touched. *)
Theorem run_on_blank_input_ends_with_the_hint :
  forall (self : EchoVerseApp) (s : Session) (text : pystr),
    (render_input_section self s).1 = inr text ->
    forallb isspace text = true ->
    (run self s).1 = inr tt
    /\ new_elements s (run self s).2
       = front_elements self s
           ++ [shown (st_info (py "Please enter some text to continue."))]
    /\ files (world (run self s).2) = files (world s)
    /\ gTTS_requests (world s) (world (run self s).2) = [].
Proof.
  intros self s text Hin Hblank.
  rewrite render_input_section_run in Hin. cbn [fst] in Hin.
  injection Hin as Hin.
  assert (Hs : nonempty (strip (input_outcome (user s) (utf8_decode s)).1) = false)
    by (rewrite Hin, nonempty_strip, Hblank; reflexivity).
  rewrite run_layout. cbv zeta.
  rewrite render_processing_section_blank by exact Hs.
  cbn [fst snd]. rewrite new_events_emits, new_elements_advance.
  split; [reflexivity|]. split; [reflexivity|]. split; [reflexivity|].
  unfold gTTS_requests.
  cbn [world advance with_page with_world].
  rewrite emits_emits, new_events_emits, omap_app, front_elements_requests.
  reflexivity.
Qed.

Lemma run_on_blank_input_ends_with_the_hint_witness :
  let s := sample_session (sample_world true None (inr []))
             (sample_user 0 (Some (py "   ")) None None) in
  (render_input_section EchoVerseApp_init s).1 = inr (py "   ")
  /\ forallb isspace (py "   ") = true
  /\ (run EchoVerseApp_init s).1 = inr tt
  /\ gTTS_requests (world s) (world (run EchoVerseApp_init s).2) = [].
Proof.
  intros s.
  assert (H1 : (render_input_section EchoVerseApp_init s).1 = inr (py "   "))
    by (vm_compute; reflexivity).
  assert (H2 : forallb isspace (py "   ") = true) by reflexivity.
  split; [exact H1 | split; [exact H2|]].
  destruct (run_on_blank_input_ends_with_the_hint EchoVerseApp_init s
              (py "   ") H1 H2) as (Ha & _ & _ & Hd).
  split; [exact Ha | exact Hd].
Defined.

(** X20: When gTTS raises for every request, a run on a text that is not
    blank, with the button pressed, still draws the comparison of the
    original and the rewritten text; the audio error is shown before
    it, and after it comes only the divider: no player, no download,
    no statistics. *)
Theorem run_shows_the_comparison_when_audio_fails :
  forall (self : EchoVerseApp) (s : Session) (text : pystr),
    (render_input_section self s).1 = inr text ->
    nonempty (strip text) = true ->
    pressed (world s) generate_label = true ->
    (forall t lang slow, engine_raises (world s) t lang slow) ->
    exists before rewritten e,
      (run self s).1 = inr tt
      /\ new_elements s (run self s).2
         = before ++ comparison_elements text rewritten ++ [st_divider]
      /\ In (shown (st_error (py "Error generating audio: " ++ str_exn e))) before
      /\ forall w,
           (rewrite_text
              {| config := entered_config (app_config self) (user s) |}
              text (chosen_tone (user s)) w).1 = inr rewritten.
Proof.
  intros self s text Hin Hs Hp Hdown.
  rewrite render_input_section_run in Hin. cbn [fst] in Hin.
  injection Hin as Hin.
  set (self' := set_config (entered_config (app_config self) (user s)) self).
  set (w1 := emits (events_of (front_elements self s)) (world s)).
  destruct (processing_failure_run self' text (chosen_tone (user s))
              (chosen_voice (user s)) w1 Hs Hp (Hdown _ _ _))
    as (e & evs & HP1 & HP2).
  set (rewritten := rewrite_result (config (rewriter self')) text
                      (chosen_tone (user s))) in *.
  assert (Hne : nonempty rewritten = true).
  { pose proof (rewrite_result_not_blank (config (rewriter self')) text
                  (chosen_tone (user s)) Hs) as Hb.
    fold rewritten in Hb. destruct rewritten; [discriminate Hb | reflexivity]. }
  exists (front_elements self s
            ++ map shown (evs ++ [st_error (py "Error generating audio: "
                                              ++ str_exn e)])),
    rewritten, e.
  rewrite run_layout. cbv zeta. rewrite Hin. fold self' w1.
  rewrite HP1, HP2, Hne.
  assert (HA : forall w,
             render_audio_section self' None rewritten w = (inr tt, w))
    by reflexivity.
  rewrite HA. cbn [fst snd].
  rewrite new_events_refl, new_elements_advance.
  split; [reflexivity|]. split.
  - cbn [map]. rewrite app_nil_r, <- !app_assoc. reflexivity.
  - split.
    + rewrite in_app_iff, map_app, in_app_iff. right. right. left. reflexivity.
    + intros w. rewrite rewrite_text_run. reflexivity.
Qed.

Lemma run_shows_the_comparison_when_audio_fails_witness :
  let s := sample_session
             (sample_world true (Some (Exception (py "Language not supported")))
                (inr []))
             (sample_user 0 (Some (py "Hello world")) None None) in
  (render_input_section EchoVerseApp_init s).1 = inr (py "Hello world")
  /\ nonempty (strip (py "Hello world")) = true
  /\ pressed (world s) generate_label = true
  /\ (forall t lang slow, engine_raises (world s) t lang slow)
  /\ (run EchoVerseApp_init s).1 = inr tt.
Proof.
  intros s.
  assert (H1 : (render_input_section EchoVerseApp_init s).1
               = inr (py "Hello world")) by (vm_compute; reflexivity).
  assert (H4 : forall t lang slow, engine_raises (world s) t lang slow)
    by (intros t lang slow; left; eexists; reflexivity).
  split; [exact H1|]. split; [reflexivity|]. split; [reflexivity|].
  split; [exact H4|].
  destruct (run_shows_the_comparison_when_audio_fails EchoVerseApp_init s
              (py "Hello world") H1 eq_refl eq_refl H4)
    as (before & rewritten & e & Hr & _).
  exact Hr.
Defined.

(** X21: When gTTS answers every request, a run on a text that is not
    blank, with the button pressed, draws the comparison, a divider and
    then the audio section: the player and the download carry the
    bytes gTTS gave, and the statistics of the rewritten text close
    the page. *)
Theorem run_ends_with_the_audio_section :
  forall (self : EchoVerseApp) (s : Session) (text : pystr) (data : list N),
    (render_input_section self s).1 = inr text ->
    nonempty (strip text) = true ->
    pressed (world s) generate_label = true ->
    (forall t lang slow,
       gtts_init (world s) t lang slow = None
       /\ gtts_audio (world s) t lang slow = inr data) ->
    exists before rewritten,
      (run self s).1 = inr tt
      /\ new_elements s (run self s).2
         = before ++ comparison_elements text rewritten ++ [st_divider]
             ++ map shown (audio_section_events data (clock (world s)) rewritten)
      /\ forall w,
           (rewrite_text
              {| config := entered_config (app_config self) (user s) |}
              text (chosen_tone (user s)) w).1 = inr rewritten.
Proof.
  intros self s text data Hin Hs Hp Hup.
  rewrite render_input_section_run in Hin. cbn [fst] in Hin.
  injection Hin as Hin.
  set (self' := set_config (entered_config (app_config self) (user s)) self).
  set (w1 := emits (events_of (front_elements self s)) (world s)).
  destruct (processing_success_run self' text (chosen_tone (user s))
              (chosen_voice (user s)) w1 data Hs Hp
              (proj1 (Hup _ _ _)) (proj2 (Hup _ _ _)))
    as (name & HP1 & Hname & Hfile & Hclock).
  set (rewritten := rewrite_result (config (rewriter self')) text
                      (chosen_tone (user s))) in *.
  assert (Hne : nonempty rewritten = true).
  { pose proof (rewrite_result_not_blank (config (rewriter self')) text
                  (chosen_tone (user s)) Hs) as Hb.
    fold rewritten in Hb. destruct rewritten; [discriminate Hb | reflexivity]. }
  rewrite run_layout. cbv zeta. rewrite Hin. fold self' w1.
  rewrite HP1, Hne.
  set (P := render_processing_section self' text (chosen_tone (user s))
              (chosen_voice (user s)) w1) in *.
  set (w2 := emits (events_of (comparison_elements text rewritten)) P.2).
  assert (HA : render_audio_section self' (Some name) rewritten w2
               = (inr tt,
                  emits (audio_section_events data (clock (world s)) rewritten) w2)).
  { rewrite (render_audio_section_run self' name rewritten data w2 Hname Hfile).
    change (clock w2) with (clock P.2). rewrite Hclock. reflexivity. }
  rewrite HA. cbn [fst snd].
  rewrite new_events_emits, new_elements_advance.
  exists (front_elements self s ++ map shown (new_events w1 P.2)), rewritten.
  split; [reflexivity|]. split.
  - rewrite <- !app_assoc. reflexivity.
  - intros w. rewrite rewrite_text_run. reflexivity.
Qed.

Lemma run_ends_with_the_audio_section_witness :
  let s := sample_session (sample_world true None (inr [73; 68; 51]%N))
             (sample_user 0 (Some (py "Hello world")) None None) in
  (render_input_section EchoVerseApp_init s).1 = inr (py "Hello world")
  /\ nonempty (strip (py "Hello world")) = true
  /\ pressed (world s) generate_label = true
  /\ (forall t lang slow,
        gtts_init (world s) t lang slow = None
        /\ gtts_audio (world s) t lang slow = inr [73; 68; 51]%N)
  /\ (run EchoVerseApp_init s).1 = inr tt.
Proof.
  intros s.
  assert (H1 : (render_input_section EchoVerseApp_init s).1
               = inr (py "Hello world")) by (vm_compute; reflexivity).
  assert (H4 : forall t lang slow,
             gtts_init (world s) t lang slow = None
             /\ gtts_audio (world s) t lang slow = inr [73; 68; 51]%N)
    by (intros t lang slow; split; reflexivity).
  split; [exact H1|]. split; [reflexivity|]. split; [reflexivity|].
  split; [exact H4|].
  destruct (run_ends_with_the_audio_section EchoVerseApp_init s
              (py "Hello world") [73; 68; 51]%N H1 eq_refl eq_refl H4)
    as (before & rewritten & Hr & _).
  exact Hr.
Defined.

(** X22: Credentials entered in the sidebar count in the same run: with all
    three entered, the text shown as tone-adapted is the template of
    the chosen tone around the input, longer than the input. *)
Theorem entered_credentials_take_effect_at_once :
  forall (self : EchoVerseApp) (s : Session) (text k u p : pystr),
    (render_input_section self s).1 = inr text ->
    nonempty (strip text) = true ->
    pressed (world s) generate_label = true ->
    typed (user s) (py "API Key:") = Some k ->
    typed (user s) (py "Service URL:") = Some u ->
    typed (user s) (py "Watsonx Project ID:") = Some p ->
    k <> [] -> u <> [] -> p <> [] ->
    In (st_text_area [] (_simulate_rewrite text (chosen_tone (user s))) 300 None
          true (Some (py "rewritten")))
       (new_elements s (run self s).2)
    /\ length text < length (_simulate_rewrite text (chosen_tone (user s))).
Proof.
  intros self s text k u p Hin Hs Hp Hk Hu Hpid Hk0 Hu0 Hp0.
  rewrite render_input_section_run in Hin. cbn [fst] in Hin.
  injection Hin as Hin.
  destruct (run_shows_the_rewritten_text self s text Hin Hs Hp)
    as (before & after & Hel & _).
  assert (Hvalid : credentials_valid (entered_config (app_config self) (user s))
                   = true).
  { unfold credentials_valid, entered_config.
    cbn [WATSON_API_KEY WATSON_URL WATSONX_PROJECT_ID].
    rewrite Hk, Hu, Hpid. cbn [default].
    destruct k; [congruence|]. destruct u; [congruence|].
    destruct p; [congruence|]. reflexivity. }
  unfold rewrite_result in Hel. rewrite Hvalid in Hel.
  split.
  - rewrite Hel, !in_app_iff. right. left.
    unfold comparison_elements. cbn [In]. tauto.
  - assert (Ht : In (chosen_tone (user s)) tones)
      by (apply picked_in; discriminate).
    pose proof (simulate_rewrite_longer text _ Ht). lia.
Qed.

Lemma entered_credentials_take_effect_at_once_witness :
  let s := sample_session (sample_world true None (inr [73; 68; 51]%N))
             (sample_user 0 (Some (py "Hello world")) None (Some (py "secret"))) in
  (render_input_section EchoVerseApp_init s).1 = inr (py "Hello world")
  /\ typed (user s) (py "API Key:") = Some (py "secret")
  /\ py "secret" <> []
  /\ In (st_text_area []
           (_simulate_rewrite (py "Hello world") (py "Suspenseful")) 300 None
           true (Some (py "rewritten")))
        (new_elements s (run EchoVerseApp_init s).2).
Proof.
  intros s.
  assert (H1 : (render_input_section EchoVerseApp_init s).1
               = inr (py "Hello world")) by (vm_compute; reflexivity).
  assert (H2 : py "secret" <> []) by (vm_compute; discriminate).
  split; [exact H1|]. split; [reflexivity|]. split; [exact H2|].
  destruct (entered_credentials_take_effect_at_once EchoVerseApp_init s
              (py "Hello world") (py "secret") (py "secret") (py "secret")
              H1 eq_refl eq_refl eq_refl eq_refl eq_refl H2 H2 H2) as [H _].
  exact H.
Defined.

(** X23: A new application holds no credentials, so when the key input is
    left untouched the program says that credentials are missing and
    the text shown, and narrated, as tone-adapted is the input
    itself. *)
Theorem without_a_key_the_text_stays_as_it_is :
  forall (s : Session) (text : pystr),
    (render_input_section EchoVerseApp_init s).1 = inr text ->
    nonempty (strip text) = true ->
    pressed (world s) generate_label = true ->
    typed (user s) (py "API Key:") = None ->
    In (st_text_area [] text 300 None true (Some (py "rewritten")))
       (new_elements s (main s).2)
    /\ In (shown (st_info (py "Please set your IBM Watson credentials in the configuration section")))
          (new_elements s (main s).2)
    /\ (rewrite_text
          {| config := entered_config EchoVerseConfig_init (user s) |}
          text (chosen_tone (user s)) (world s)).1 = inr text.
Proof.
  intros s text Hin Hs Hp Hk.
  rewrite render_input_section_run in Hin. cbn [fst] in Hin.
  injection Hin as Hin.
  set (s0 := advance (world s)
               [st_set_page_config (py "EchoVerse - AI Audiobook Creator")
                  [127911%N] (py "wide")] s).
  assert (Hinvalid : credentials_valid (entered_config EchoVerseConfig_init (user s))
                     = false).
  { unfold credentials_valid, entered_config.
    cbn [WATSON_API_KEY WATSON_URL WATSONX_PROJECT_ID EchoVerseConfig_init].
    rewrite Hk. reflexivity. }
  destruct (run_shows_the_rewritten_text EchoVerseApp_init s0 text Hin Hs Hp)
    as (before & after & Hel & Hbefore).
  destruct (processing_events_prefix
              (set_config (entered_config EchoVerseConfig_init (user s))
                 EchoVerseApp_init)
              text (chosen_tone (user s)) (chosen_voice (user s))
              (emits (events_of (front_elements EchoVerseApp_init s0)) (world s0))
              Hs Hp) as (rest & Hrest).
  specialize (Hbefore _ Hrest).
  change (user s0) with (user s) in Hel.
  change (app_config EchoVerseApp_init) with EchoVerseConfig_init in Hel.
  unfold rewrite_result in Hel. rewrite Hinvalid in Hel.
  change (config (rewriter (set_config (entered_config EchoVerseConfig_init (user s))
                              EchoVerseApp_init)))
    with (entered_config EchoVerseConfig_init (user s)) in Hbefore.
  unfold credential_diagnostics in Hbefore. rewrite Hinvalid in Hbefore.
  assert (Hnew : new_elements s (main s).2
                 = [st_set_page_config (py "EchoVerse - AI Audiobook Creator")
                      [127911%N] (py "wide")]
                     ++ new_elements s0 (run EchoVerseApp_init s0).2).
  { rewrite main_run. fold s0.
    destruct (run_extends_the_page EchoVerseApp_init s0) as (w & l & ->).
    rewrite new_elements_advance. unfold s0.
    rewrite advance_advance, new_elements_advance. reflexivity. }
  rewrite Hnew, Hel, Hbefore. split; [|split].
  - rewrite !in_app_iff. right. right. left.
    unfold comparison_elements. cbn [In]. tauto.
  - rewrite !in_app_iff. right. left. right.
    cbn [map app In]. tauto.
  - rewrite rewrite_text_run. cbn [fst config].
    unfold rewrite_result. rewrite Hinvalid. reflexivity.
Qed.

Lemma without_a_key_the_text_stays_as_it_is_witness :
  let s := sample_session (sample_world true None (inr [73; 68; 51]%N))
             (sample_user 0 (Some (py "Hello world")) None None) in
  (render_input_section EchoVerseApp_init s).1 = inr (py "Hello world")
  /\ nonempty (strip (py "Hello world")) = true
  /\ pressed (world s) generate_label = true
  /\ typed (user s) (py "API Key:") = None
  /\ In (st_text_area [] (py "Hello world") 300 None true (Some (py "rewritten")))
        (new_elements s (main s).2).
Proof.
  intros s.
  assert (H1 : (render_input_section EchoVerseApp_init s).1
               = inr (py "Hello world")) by (vm_compute; reflexivity).
  split; [exact H1|]. split; [reflexivity|]. split; [reflexivity|].
  split; [reflexivity|].
  destruct (without_a_key_the_text_stays_as_it_is s (py "Hello world")
              H1 eq_refl eq_refl eq_refl) as [H _].
  exact H.
Defined.

(** ** Words *)

Lemma split_from_nil cur (s : pystr) :
  split_from cur s = [] <-> cur = [] /\ forallb isspace s = true.
Proof.
  revert cur. induction s as [|c s IH]; intros cur; cbn [split_from forallb].
  - destruct cur; split; try tauto; try discriminate.
    intros [E _]. discriminate E.
  - destruct (isspace c); cbn [andb].
    + destruct cur as [|a cur].
      * apply IH.
      * split; [discriminate | intros [E _]; discriminate E].
    + rewrite IH. split; [intros [E _]; discriminate E | intros [_ E]; discriminate E].
Qed.

(** X24: The check for empty input and the word count agree: a text passes
    the check exactly when [split] finds a word in it.  So every text
    the processing step returns has at least one word, and the word
    count shown in the statistics is never 0. *)
Theorem returned_text_has_a_word :
  forall (self : EchoVerseApp) (text tone voice : pystr) (w : World),
    (nonempty (strip text) = true <-> 1 <= length (split text))
    /\ forall t a,
         (render_processing_section self text tone voice w).1 = inr (Some t, a) ->
         1 <= length (split t).
Proof.
  intros self text tone voice w.
  assert (Hword : forall s : pystr,
             nonempty (strip s) = true <-> 1 <= length (split s)).
  { intros s. rewrite nonempty_strip. unfold split.
    pose proof (split_from_nil [] s) as Hn.
    destruct (forallb isspace s).
    - destruct Hn as [_ Hn]. rewrite Hn by (split; reflexivity).
      cbn [negb length]. split; [discriminate | lia].
    - destruct (split_from [] s) as [|x l].
      + destruct Hn as [Hn _]. destruct (Hn eq_refl) as [_ E]. discriminate E.
      + cbn [negb length]. split; [lia | reflexivity]. }
  split; [apply Hword|].
  intros t a H.
  destruct (nonempty (strip text)) eqn:Hs.
  2:{ rewrite render_processing_section_blank in H by assumption. discriminate H. }
  destruct (pressed w generate_label) eqn:Hp.
  2:{ rewrite render_processing_section_idle in H by assumption. discriminate H. }
  destruct (processing_go_result self text tone voice w Hs Hp) as (a' & H').
  rewrite H' in H. injection H as <- _.
  apply Hword, rewrite_result_not_blank, Hs.
Qed.

Lemma returned_text_has_a_word_witness :
  let w := sample_world true None (inr [73; 68; 51]%N) in
  (render_processing_section EchoVerseApp_init (py "Hello world") (py "Neutral")
     (py "Lisa") w).1
  = inr (Some (py "Hello world"), Some (py "/tmp/tmp0.mp3"))
  /\ 1 <= length (split (py "Hello world")).
Proof.
  intros w.
  assert (H : (render_processing_section EchoVerseApp_init (py "Hello world")
                 (py "Neutral") (py "Lisa") w).1
              = inr (Some (py "Hello world"), Some (py "/tmp/tmp0.mp3")))
    by (vm_compute; reflexivity).
  split; [exact H|].
  destruct (returned_text_has_a_word EchoVerseApp_init (py "Hello world")
              (py "Neutral") (py "Lisa") w) as [_ Hr].
  exact (Hr _ _ H).
Defined.

Lemma validate_credentials_names_the_empty_ones_witness :
  let w := sample_world true None (inr []) in
  (validate_credentials sample_config w).1 = inr true
  /\ (validate_credentials sample_config w).2 = w
  /\ (validate_credentials EchoVerseConfig_init w).1 <> inr true
  /\ (validate_credentials EchoVerseConfig_init w).1 = inr false.
Proof.
  intros w.
  assert (H1 : (validate_credentials sample_config w).1 = inr true)
    by reflexivity.
  assert (H3 : (validate_credentials EchoVerseConfig_init w).1 <> inr true)
    by (vm_compute; discriminate).
  split; [exact H1|].
  split.
  - destruct (validate_credentials_names_the_empty_ones sample_config w)
      as (_ & H & _).
    exact (H H1).
  - split; [exact H3|].
    destruct (validate_credentials_names_the_empty_ones EchoVerseConfig_init w)
      as (_ & _ & H & _).
    exact (proj1 (H H3)).
Defined.
